(** * School enrollment statistics: a shallow embedding of [school_data.py]

    The development follows the source file top to bottom: the exceptions
    the code can raise, Python's insertion-ordered [dict], the built-in
    conversions [str] and [int] used by the lookup, the [SchoolData] class
    and the [Statistics] class.  Theorems come after all definitions.

    Modelling conventions.
    - A Python call that may raise is a function into [result]; the error
      side carries the exception class and what raised it.
    - A [dict] is an association list with unique keys kept in insertion
      order, because [get_school_data] depends on that order.
    - Array cells are [cell]s: either [NaN] or an exact rational, results
      of arithmetic being kept in lowest terms.  Rounding of float64
      arithmetic is not modelled; enrollment counts and their sums are
      integers far below 2^53, where float64 is exact.
    - Strings are byte strings with ASCII semantics: a byte above 127 is an
      ordinary name character (neither whitespace nor a digit), and the
      interpreter's limit on the length of integer literals is left out. *)

From Stdlib Require Import String Ascii List ZArith QArith Qreduction Bool Lia.
From Stdlib Require Import Sorted Permutation Lqa.
Import ListNotations.

Open Scope string_scope.
Open Scope list_scope.
Open Scope Z_scope.

(* ------------------------------------------------------------------ *)
(** ** Exceptions and results *)

(** What raised the exception; one constructor per raising site. *)
Inductive cause : Type :=
| Invalid_literal (s : string)   (* int(s) on a string that is no literal *)
| Not_valid_school               (* raise ValueError("... MUST enter a VALID ...") *)
| Inhomogeneous_shape            (* np.array on rows of different lengths *)
| Cannot_reshape (size : nat)    (* ndarray.reshape with a wrong total size *)
| Not_in_list (code : Z)         (* list.index on an absent element *)
| Out_of_bounds (index : nat)    (* ndarray indexing past an axis *)
| Zero_size_reduction.           (* np.max / np.min of an empty array *)

Inductive exn : Type :=
| ValueError (c : cause)
| IndexError (c : cause).

Inductive result (A : Type) : Type :=
| Ok (a : A)
| Raise (e : exn).
Arguments Ok {A} a.
Arguments Raise {A} e.

Definition bind {A B} (r : result A) (k : A -> result B) : result B :=
  match r with
  | Ok a => k a
  | Raise e => Raise e
  end.

Notation "x <- r ;; k" := (bind r (fun x => k))
  (at level 61, r at next level, right associativity).

Definition is_ok {A} (r : result A) : bool :=
  match r with Ok _ => true | Raise _ => false end.

Definition is_ValueError {A} (r : result A) : bool :=
  match r with Raise (ValueError _) => true | _ => false end.

(* ------------------------------------------------------------------ *)
(** ** Python's insertion-ordered dict *)

Module Dict.
Section Dict.
Context {K V : Type}.
Variable eqb : K -> K -> bool.

Definition t := list (K * V).

(** [d[k]] when [k in d]. *)
Fixpoint get (k : K) (d : t) : option V :=
  match d with
  | [] => None
  | (k', v) :: d' => if eqb k k' then Some v else get k d'
  end.

(** [k in d.keys()] *)
Definition mem (k : K) (d : t) : bool :=
  match get k d with Some _ => true | None => false end.

(** [d[k] = v]: an existing key keeps its place, a new key goes last. *)
Fixpoint set (k : K) (v : V) (d : t) : t :=
  match d with
  | [] => [(k, v)]
  | (k', v') :: d' =>
      if eqb k k' then (k', v) :: d' else (k', v') :: set k v d'
  end.

Definition keys (d : t) : list K := map fst d.
Definition values (d : t) : list V := map snd d.

(** The loop [for row in rows: d[key row] = val row]. *)
Definition assign_all {R} (key : R -> K) (val : R -> V) (rows : list R)
  (d : t) : t :=
  fold_left (fun d r => set (key r) (val r) d) rows d.

(** The value assigned last to [k] by the rows, [init] if there is none. *)
Fixpoint last_assigned {R} (key : R -> K) (val : R -> V) (k : K)
  (rows : list R) (init : option V) : option V :=
  match rows with
  | [] => init
  | r :: rows' =>
      last_assigned key val k rows'
        (if eqb k (key r) then Some (val r) else init)
  end.
End Dict.
End Dict.

(* ------------------------------------------------------------------ *)
(** ** The school table *)

(** One row of [dataframe[["School Name", "School Code"]]]. *)
Definition row : Type := string * Z.

Definition row_eqb (r1 r2 : row) : bool :=
  String.eqb (fst r1) (fst r2) && Z.eqb (snd r1) (snd r2).

(** [DataFrame.drop_duplicates()] (keep='first') followed by
    [reset_index(drop=True)]: the first occurrence of every row stays, in
    the original order; positions are renumbered from 0, which is the list
    position. *)
Fixpoint drop_duplicates (rows : list row) : list row :=
  match rows with
  | [] => []
  | r :: rows' =>
      r :: filter (fun r' => negb (row_eqb r r')) (drop_duplicates rows')
  end.

(** [list.index(x)]: position of the first element equal to [x]. *)
Fixpoint list_index (x : Z) (l : list Z) : option nat :=
  match l with
  | [] => None
  | y :: l' => if Z.eqb x y then Some O else option_map S (list_index x l')
  end.

(** No name of the table carries two codes; no code carries two names. *)
Definition names_functional (rows : list row) : Prop :=
  forall n c c', In (n, c) rows -> In (n, c') rows -> c = c'.

Definition codes_functional (rows : list row) : Prop :=
  forall n n' c, In (n, c) rows -> In (n', c) rows -> n = n'.

(* ------------------------------------------------------------------ *)
(** ** The built-ins [str] and [int] *)

Definition digit_char (d : Z) : ascii :=
  ascii_of_nat (48 + Z.to_nat d).

(** Decimal digits of a non-negative number, most significant first. *)
Fixpoint digits_of (fuel : nat) (n : Z) (acc : string) : string :=
  match fuel with
  | O => acc
  | S fuel' =>
      let acc' := String (digit_char (n mod 10)) acc in
      if n <? 10 then acc' else digits_of fuel' (n / 10) acc'
  end.

(** [str(n)] for an [int]. *)
Definition py_str (n : Z) : string :=
  if n <? 0
  then String "-" (digits_of (S (Z.to_nat (Z.log2 (- n)))) (- n) "")
  else digits_of (S (Z.to_nat (Z.log2 n))) n "".

(** Whitespace that [int] strips: TAB..CR, FS..US and space. *)
Definition is_space (c : ascii) : bool :=
  let n := nat_of_ascii c in
  ((9 <=? n) && (n <=? 13) || (28 <=? n) && (n <=? 32))%nat.

Definition digit_value (c : ascii) : option Z :=
  let n := nat_of_ascii c in
  if ((48 <=? n) && (n <=? 57))%nat then Some (Z.of_nat n - 48) else None.

Fixpoint skip_spaces (s : string) : string :=
  match s with
  | String c s' => if is_space c then skip_spaces s' else s
  | EmptyString => s
  end.

Definition all_spaces (s : string) : bool :=
  match skip_spaces s with EmptyString => true | _ => false end.

(** The digit loop of the literal: [acc] is the value read so far, [prev_us]
    tells whether the previous character was an underscore.  A single
    underscore may separate two digits; the literal ends at the first
    character that is neither, and only whitespace may follow. *)
Fixpoint scan_digits (s : string) (acc : Z) (prev_us : bool) : option Z :=
  match s with
  | EmptyString => if prev_us then None else Some acc
  | String c s' =>
      match digit_value c with
      | Some d => scan_digits s' (10 * acc + d) false
      | None =>
          if Ascii.eqb c "_"
          then if prev_us then None else scan_digits s' acc true
          else if prev_us then None
               else if all_spaces s then Some acc else None
      end
  end.

(** After the sign: the literal starts with a digit. *)
Definition scan_literal (s : string) : option Z :=
  match s with
  | String c s' =>
      match digit_value c with
      | Some d => scan_digits s' d false
      | None => None
      end
  | EmptyString => None
  end.

(** [int(s)] for a [str], base 10; [None] stands for the [ValueError]
    "invalid literal for int()". *)
Definition py_int (s : string) : option Z :=
  match skip_spaces s with
  | String "+" s' => scan_literal s'
  | String "-" s' => option_map Z.opp (scan_literal s')
  | s' => scan_literal s'
  end.

(** The value the digit loop reaches from [a] after reading the digits of
    [n]. *)
Fixpoint shift (fuel : nat) (a n : Z) : Z :=
  match fuel with
  | O => a
  | S fuel' =>
      if n <? 10 then 10 * a + n
      else 10 * shift fuel' a (n / 10) + n mod 10
  end.

(* ------------------------------------------------------------------ *)
(** ** Array cells *)

Inductive cell : Type :=
| NaN
| Fin (q : Q).

Definition of_Z (z : Z) : cell := Fin (inject_Z z).
Definition of_nat (n : nat) : cell := Fin (inject_Z (Z.of_nat n)).

Definition is_nan (x : cell) : bool :=
  match x with NaN => true | Fin _ => false end.

Definition finite (x : cell) : Prop := exists q, x = Fin q.

Definition fadd (x y : cell) : cell :=
  match x, y with
  | Fin a, Fin b => Fin (Qred (a + b))
  | _, _ => NaN
  end.

(** Division; 0/0 is NaN, and a non-zero number over zero (an infinity in
    float64) does not occur since every divisor below is a number of
    elements, with a zero sum when there are none. *)
Definition fdiv (x y : cell) : cell :=
  match x, y with
  | Fin a, Fin b => if Qeq_bool b 0 then NaN else Fin (Qred (a / b))
  | _, _ => NaN
  end.

(** [x > y] on floats: false as soon as one side is NaN. *)
Definition fgt (x y : cell) : bool :=
  match x, y with
  | Fin a, Fin b => negb (Qle_bool a b)
  | _, _ => false
  end.

(** [np.maximum] / [np.minimum]: a NaN operand wins. *)
Definition fmax (x y : cell) : cell :=
  match x, y with
  | Fin a, Fin b => if Qle_bool a b then y else x
  | _, _ => NaN
  end.

Definition fmin (x y : cell) : cell :=
  match x, y with
  | Fin a, Fin b => if Qle_bool a b then x else y
  | _, _ => NaN
  end.

(* ------------------------------------------------------------------ *)
(** ** The numpy functions the program calls, on lists in C order *)

(** [np.sum] of a 1-D array. *)
Definition np_sum (l : list cell) : cell :=
  fold_left fadd l (Fin 0).

(** [np.mean]: the sum divided by the number of elements (NaN when empty). *)
Definition np_mean (l : list cell) : cell :=
  fdiv (np_sum l) (of_nat (length l)).

(** [np.max] / [np.min] of a flattened array. *)
Definition np_max (l : list cell) : result cell :=
  match l with
  | [] => Raise (ValueError Zero_size_reduction)
  | x :: l' => Ok (fold_left fmax l' x)
  end.

Definition np_min (l : list cell) : result cell :=
  match l with
  | [] => Raise (ValueError Zero_size_reduction)
  | x :: l' => Ok (fold_left fmin l' x)
  end.

(** Sorting, for [np.median]. *)
Definition fle (x y : cell) : bool :=
  match x, y with
  | Fin a, Fin b => Qle_bool a b
  | Fin _, NaN => true            (* numpy sorts NaN last *)
  | NaN, NaN => true
  | NaN, Fin _ => false
  end.

Fixpoint insert_sorted (x : cell) (l : list cell) : list cell :=
  match l with
  | [] => [x]
  | y :: l' => if fle x y then x :: l else y :: insert_sorted x l'
  end.

Definition np_sort (l : list cell) : list cell :=
  fold_right insert_sorted [] l.

(** [np.median] of a 1-D array: NaN if the array is empty or holds a NaN;
    otherwise the mean of the middle element (odd size) or of the two
    middle elements (even size) of the sorted array. *)
Definition np_median (l : list cell) : cell :=
  if existsb is_nan l then NaN
  else
    let s := np_sort l in
    let n := length l in
    if Nat.even n
    then np_mean (firstn 2 (skipn (n / 2 - 1) s))
    else np_mean (firstn 1 (skipn (n / 2) s)).

(** The nan-aware variants. *)
Definition np_nansum (l : list cell) : cell :=
  np_sum (map (fun x => if is_nan x then Fin 0 else x) l).

Definition np_nanmean (l : list cell) : cell :=
  fdiv (np_nansum l)
       (of_nat (length (filter (fun x => negb (is_nan x)) l))).

(** [np.fmax] / [np.fmin]: a NaN operand loses. *)
Definition fmax_nan (x y : cell) : cell :=
  match x, y with
  | NaN, _ => y
  | _, NaN => x
  | Fin a, Fin b => if Qle_bool a b then y else x
  end.

Definition fmin_nan (x y : cell) : cell :=
  match x, y with
  | NaN, _ => y
  | _, NaN => x
  | Fin a, Fin b => if Qle_bool a b then x else y
  end.

Definition np_nanmax (l : list cell) : result cell :=
  match l with
  | [] => Raise (ValueError Zero_size_reduction)
  | x :: l' => Ok (fold_left fmax_nan l' x)
  end.

Definition np_nanmin (l : list cell) : result cell :=
  match l with
  | [] => Raise (ValueError Zero_size_reduction)
  | x :: l' => Ok (fold_left fmin_nan l' x)
  end.

(** [np.array(data)] on a list of 1-D rows: the rows must have one common
    length (numpy 1.24 and later raise otherwise).  The array is kept in
    C order together with its element count. *)
Definition rectangular (rows : list (list cell)) : bool :=
  match rows with
  | [] => true
  | r :: rows' => forallb (fun r' => Nat.eqb (length r') (length r)) rows'
  end.

Definition np_array (rows : list (list cell)) : result (list cell) :=
  if rectangular rows then Ok (concat rows)
  else Raise (ValueError Inhomogeneous_shape).

(** [n] consecutive chunks of [k] elements. *)
Fixpoint chunks {A} (n k : nat) (l : list A) : list (list A) :=
  match n with
  | O => []
  | S n' => firstn k l :: chunks n' k (skipn k l)
  end.

(** [a.reshape((10, 20, 3))]: only the total size is checked. *)
Definition tensor : Type := list (list (list cell)).

Definition reshape_10_20_3 (flat : list cell) : result tensor :=
  if Nat.eqb (length flat) 600
  then Ok (map (chunks 20 3) (chunks 10 60 flat))
  else Raise (ValueError (Cannot_reshape (length flat))).

(** [a.shape] of a tensor built by [reshape_10_20_3], read off the nesting. *)
Definition shape (a : tensor) : nat * nat * nat :=
  (length a, length (nth 0 a []), length (nth 0 (nth 0 a []) [])).

(* ------------------------------------------------------------------ *)
(** ** class SchoolData *)

Record SchoolData : Type := {
  data : tensor;
  school_names_ids : Dict.t (K := string) (V := Z);
  school_ids_names : Dict.t (K := Z) (V := string)
}.

(** The two loops over [school_data.iterrows()]. *)
Definition set_schools_and_ids (dataframe : list row)
  : Dict.t (K := string) (V := Z) * Dict.t (K := Z) (V := string) :=
  let school_data := drop_duplicates dataframe in
  let school_names_ids := Dict.assign_all String.eqb fst snd school_data [] in
  let school_ids_names := Dict.assign_all Z.eqb snd fst school_data [] in
  (school_names_ids, school_ids_names).

(** [SchoolData.__init__] *)
Definition init (rows : list (list cell)) (school_df : list row)
  : result SchoolData :=
  a <- np_array rows ;;
  d <- reshape_10_20_3 a ;;
  let '(names_ids, ids_names) := set_schools_and_ids school_df in
  Ok {| data := d; school_names_ids := names_ids; school_ids_names := ids_names |}.

Definition data_shape_dim (self : SchoolData) : (nat * nat * nat) * nat :=
  (shape (data self), 3%nat).

Definition look_up_school (self : SchoolData) (id_or_name : string)
  : result (string * Z) :=
  match Dict.get String.eqb id_or_name (school_names_ids self) with
  | Some school_code => Ok (id_or_name, school_code)
  | None =>
      match py_int id_or_name with
      | None => Raise (ValueError (Invalid_literal id_or_name))
      | Some code =>
          match Dict.get Z.eqb code (school_ids_names self) with
          | Some school_name => Ok (school_name, code)
          | None => Raise (ValueError Not_valid_school)
          end
      end
  end.

(** [data[:, i, :]] *)
Definition school_slice (a : tensor) (i : nat) : result (list (list cell)) :=
  if (i <? length (nth 0 a []))%nat
  then Ok (map (fun year => nth i year []) a)
  else Raise (IndexError (Out_of_bounds i)).

(** [list(self.school_names_ids.values()).index(school_code)] *)
Definition position_of_code (self : SchoolData) (school_code : Z) : result nat :=
  match list_index school_code (Dict.values (school_names_ids self)) with
  | Some i => Ok i
  | None => Raise (ValueError (Not_in_list school_code))
  end.

Definition get_school_data (self : SchoolData) (school_code : Z)
  : result (list (list cell)) :=
  school_array_index <- position_of_code self school_code ;;
  school_slice (data self) school_array_index.

(* ------------------------------------------------------------------ *)
(** ** class Statistics *)

(** [school_data[:, j]] of a (years, grades) slice. *)
Definition column (j : nat) (school_data : list (list cell)) : list cell :=
  map (fun year => nth j year NaN) school_data.

Definition school_enrol_grade_means (school_data : list (list cell))
  : cell * cell * cell :=
  (np_mean (column 0 school_data),
   np_mean (column 1 school_data),
   np_mean (column 2 school_data)).

Definition school_enrol_max_min (school_data : list (list cell))
  : result (cell * cell) :=
  highest_enrollment <- np_max (concat school_data) ;;
  lowest_enrollment <- np_min (concat school_data) ;;
  Ok (highest_enrollment, lowest_enrollment).

(** [np.sum(school_data, axis=1)] *)
Definition school_enrol_tot_per_year (school_data : list (list cell))
  : list cell :=
  map np_sum school_data.

Definition school_tot_ten_year (school_data : list (list cell)) : cell :=
  np_sum (school_enrol_tot_per_year school_data).

Definition mean_tot_enrol (school_data : list (list cell)) : cell :=
  np_mean (school_enrol_tot_per_year school_data).

(** [school_data[school_data > 500]]: the selected cells in C order. *)
Definition over_500 (school_data : list (list cell)) : list cell :=
  filter (fun x => fgt x (of_Z 500)) (concat school_data).

(** The function returns whatever [np.median] returns; nothing is raised. *)
Definition median_over_500 (school_data : list (list cell)) : result cell :=
  Ok (np_median (over_500 school_data)).

(** The five values [general_stats] prints. *)
Record general : Type := {
  mean_2013 : cell;
  mean_2022 : cell;
  total_grad_2022 : cell;
  max_enrol_grade : cell;
  min_enrol_grade : cell
}.

Definition general_stats (data_obj : SchoolData) : result general :=
  let d := data data_obj in
  let m13 := np_nanmean (concat (nth 0 d [])) in
  let m22 := np_nanmean (concat (nth 9 d [])) in
  let g22 := np_nansum (column 2 (nth 9 d [])) in
  mx <- np_nanmax (concat (concat d)) ;;
  mn <- np_nanmin (concat (concat d)) ;;
  Ok {| mean_2013 := m13; mean_2022 := m22; total_grad_2022 := g22;
        max_enrol_grade := mx; min_enrol_grade := mn |}.

(** The values [print_school_stats] prints, in order. *)
Record school_stats : Type := {
  mean_grades : cell * cell * cell;
  max_min_enroll : cell * cell;
  total_enrollment_per_year : list cell;
  total_ten_year : cell;
  mean_total : cell;
  median_500 : cell
}.

Definition print_school_stats (school_data : list (list cell))
  : result school_stats :=
  mm <- school_enrol_max_min school_data ;;
  med <- median_over_500 school_data ;;
  Ok {| mean_grades := school_enrol_grade_means school_data;
        max_min_enroll := mm;
        total_enrollment_per_year := school_enrol_tot_per_year school_data;
        total_ten_year := school_tot_ten_year school_data;
        mean_total := mean_tot_enrol school_data;
        median_500 := med |}.

(** [input_handler_for_part2]: resolve, slice, report. *)
Definition input_handler_for_part2 (data_obj : SchoolData) (user_input : string)
  : result (string * Z * school_stats) :=
  nc <- look_up_school data_obj user_input ;;
  school_data <- get_school_data data_obj (snd nc) ;;
  st <- print_school_stats school_data ;;
  Ok (nc, st).

(* ------------------------------------------------------------------ *)
(** ** Sample inputs *)

Definition sample_table : list row :=
  [("Alpha High", 101); ("Alpha High", 101); ("Beta High", 202)].

Definition zero_rows : list (list cell) :=
  repeat (repeat (of_Z 0) 60) 10.

(** One school of [zero_rows]. *)
Definition zero_slice : list (list cell) :=
  repeat [of_Z 0; of_Z 0; of_Z 0] 10.

(** A school with 500, 501 and 700 pupils in the three grades every year. *)
Definition mixed_slice : list (list cell) :=
  repeat [of_Z 500; of_Z 501; of_Z 700] 10.

(** Every cell is 600, except that the first school has no grade-10 figure
    for the first year. *)
Definition nan_rows : list (list cell) :=
  (NaN :: repeat (of_Z 600) 59) :: repeat (repeat (of_Z 600) 60) 9.

Definition nan_slice : list (list cell) :=
  [NaN; of_Z 600; of_Z 600] :: repeat [of_Z 600; of_Z 600; of_Z 600] 9.

Definition nan_obj : SchoolData :=
  {| data := map (chunks 20 3) (chunks 10 60 (concat nan_rows));
     school_names_ids := fst (set_schools_and_ids sample_table);
     school_ids_names := snd (set_schools_and_ids sample_table) |}.

(** Twenty rows of thirty values: 600 values in another arrangement. *)
Definition rows_20_by_30 : list (list cell) :=
  repeat (repeat (of_Z 0) 30) 20.

Definition sample_slice : list (list cell) :=
  repeat [of_Z 100; of_Z 200; of_Z 200] 10.

Definition conflicting_table : list row :=
  [("Alpha High", 101); ("Beta High", 202); ("Alpha High", 303)].

Definition digit_named_table : list row :=
  [("202", 101); ("Beta High", 202)].

(** The object [SchoolData(zero_rows, school_df)]. *)
Definition zero_data (school_df : list row) : SchoolData :=
  {| data := repeat (repeat [of_Z 0; of_Z 0; of_Z 0] 20) 10;
     school_names_ids := fst (set_schools_and_ids school_df);
     school_ids_names := snd (set_schools_and_ids school_df) |}.

(** The object [SchoolData(zero_rows, sample_table)]. *)
Definition sample_obj : SchoolData :=
  {| data := repeat (repeat [of_Z 0; of_Z 0; of_Z 0] 20) 10;
     school_names_ids := [("Alpha High", 101); ("Beta High", 202)];
     school_ids_names := [(101, "Alpha High"); (202, "Beta High")] |}.

(** Rows whose cell [j] of year [y] holds the number [60*y + j]. *)
Definition ramp_rows : list (list cell) :=
  map (fun y => map (fun j => of_nat (60 * y + j)) (seq 0 60)) (seq 0 10).

Definition ramp_obj : SchoolData :=
  {| data := map (chunks 20 3) (chunks 10 60 (concat ramp_rows));
     school_names_ids := fst (set_schools_and_ids sample_table);
     school_ids_names := snd (set_schools_and_ids sample_table) |}.

(* ------------------------------------------------------------------ *)
(** ** Reference values for the statistics *)

(** The exact sum of the cells, [None] when one of them is NaN. *)
Fixpoint exact_sum (l : list cell) : option Q :=
  match l with
  | [] => Some 0%Q
  | NaN :: _ => None
  | Fin q :: l' => option_map (Qplus q) (exact_sum l')
  end.


(* ------------------------------------------------------------------ *)
(** ** Printing and the interactive loop *)

(** What one [print] call (or the prompt of [input]) writes.  Numbers are
    kept as values: their rendering by [:.0f] is not modelled. *)
Inductive printed : Type :=
| P_title                                (* ENSF 692 School Enrollment ... *)
| P_shape (s : nat * nat * nat)          (* Shape of the array: ... *)
| P_dimensions (d : nat)                 (* Dimensions of the array: ... *)
| P_prompt                               (* Enter a school name or ... *)
| P_requested                            (* ***Requested School Statistics*** *)
| P_school (name : string) (code : Z)    (* School Name: ..., School Code: ... *)
| P_grade_means (m : cell * cell * cell) (* the three mean lines, one call *)
| P_highest_lowest (m : cell * cell)     (* the two lines, one call *)
| P_year_total (year : Z) (total : cell) (* Total enrollment in <year>: ... *)
| P_ten_year_total (t : cell)
| P_mean_total (t : cell)
| P_median_over_500 (m : cell)
| P_general                              (* ***General Statistics ...*** *)
| P_mean_2013 (m : cell)
| P_mean_2022 (m : cell)
| P_total_grad_2022 (t : cell)
| P_highest (m : cell)
| P_lowest (m : cell)
| P_exception (e : exn).                 (* print(e) in the handler *)

(** A computation that prints and may raise: what was written up to the
    end or up to the exception, and how it ended. *)
Definition io (A : Type) : Type := list printed * result A.

Definition io_print (p : printed) : io unit := ([p], Ok tt).

Definition io_lift {A} (r : result A) : io A := ([], r).

Definition io_bind {A B} (m : io A) (k : A -> io B) : io B :=
  match m with
  | (out, Ok a) => let (out', r) := k a in (out ++ out', r)
  | (out, Raise e) => (out, Raise e)
  end.

Notation "x <~ m ;; k" := (io_bind m (fun x => k))
  (at level 61, m at next level, right associativity).

(** [range(2013, 2023)] *)
Definition years : list Z := map Z.of_nat (seq 2013 10).

(** [print_school_stats], statement by statement; the loop over
    [zip(range(2013, 2023), total_enrollment_per_year)] stops at the
    shorter of the two. *)
Definition print_school_stats_io (school_data : list (list cell)) : io unit :=
  _ <~ io_print (P_grade_means (school_enrol_grade_means school_data)) ;;
  max_min_enroll <~ io_lift (school_enrol_max_min school_data) ;;
  _ <~ io_print (P_highest_lowest max_min_enroll) ;;
  _ <~ (map (fun yt => P_year_total (fst yt) (snd yt))
            (combine years (school_enrol_tot_per_year school_data)),
        Ok tt) ;;
  _ <~ io_print (P_ten_year_total (school_tot_ten_year school_data)) ;;
  _ <~ io_print (P_mean_total (mean_tot_enrol school_data)) ;;
  median <~ io_lift (median_over_500 school_data) ;;
  io_print (P_median_over_500 median).

(** [general_stats] with its five prints, which follow the five
    reductions. *)
Definition general_stats_io (data_obj : SchoolData) : io unit :=
  g <~ io_lift (general_stats data_obj) ;;
  ([P_mean_2013 (mean_2013 g); P_mean_2022 (mean_2022 g);
    P_total_grad_2022 (total_grad_2022 g);
    P_highest (max_enrol_grade g); P_lowest (min_enrol_grade g)], Ok tt).

Definition input_handler_for_part2_io (data_obj : SchoolData)
  (user_input : string) : io unit :=
  nc <~ io_lift (look_up_school data_obj user_input) ;;
  _ <~ io_print (P_school (fst nc) (snd nc)) ;;
  school_data <~ io_lift (get_school_data data_obj (snd nc)) ;;
  print_school_stats_io school_data.

Definition input_handler_for_part3_io (data_obj : SchoolData) : io unit :=
  general_stats_io data_obj.

(** The [else] branch of [main]: both reports under their headings. *)
Definition else_branch (data_obj : SchoolData) (user_input : string)
  : io unit :=
  _ <~ io_print P_requested ;;
  _ <~ input_handler_for_part2_io data_obj user_input ;;
  _ <~ io_print P_general ;;
  input_handler_for_part3_io data_obj.

(** What every pass prints before it reads the input, for a tensor of the
    fixed shape. *)
Definition banner : list printed :=
  [P_title; P_shape (10, 20, 3)%nat; P_dimensions 3; P_prompt].

(** An exception that the handler of [main] does not catch. *)
Definition escapes {A} (r : result A) : bool :=
  match r with Raise (IndexError _) => true | _ => false end.

(** How one pass through the body of [while (True)] ends, with the user
    input that is left. *)
Inductive step : Type :=
| Broke
| Continued (rest : list string)
| Raised (e : exn) (rest : list string)
| Eof.

(** The [try] block of [main].  [data] stands for the ten year arrays of
    [given_data] and [school_df] for what [pd.read_csv] returns, the same
    in every pass; [inputs] are the lines the user will type, [input]
    raising [EOFError] when none is left. *)
Definition try_block (data : list (list cell)) (school_df : list row)
  (inputs : list string) : list printed * step :=
  match init data school_df with
  | Raise e => ([P_title], Raised e inputs)
  | Ok data_obj =>
      let '(shape, dim) := data_shape_dim data_obj in
      let head := [P_title; P_shape shape; P_dimensions dim; P_prompt] in
      match inputs with
      | [] => (head, Eof)
      | user_input :: rest =>
          if String.eqb user_input "q" then (head, Broke)
          else
            let '(out, r) := else_branch data_obj user_input in
            match r with
            | Ok _ => (head ++ out, Continued rest)
            | Raise e => (head ++ out, Raised e rest)
            end
      end
  end.

(** How the program ends. *)
Inductive outcome : Type :=
| Quit                       (* break *)
| Uncaught (e : exn)         (* an exception other than ValueError *)
| Uncaught_EOFError          (* input() with nothing left to read *)
| Out_of_fuel.               (* still looping after [fuel] passes *)

(** [main]: the loop with its [except ValueError] handler, for at most
    [fuel] passes. *)
Fixpoint main (fuel : nat) (data : list (list cell)) (school_df : list row)
  (inputs : list string) : list printed * outcome :=
  match fuel with
  | O => ([], Out_of_fuel)
  | S fuel' =>
      let '(out, st) := try_block data school_df inputs in
      match st with
      | Broke => (out, Quit)
      | Eof => (out, Uncaught_EOFError)
      | Continued rest =>
          let '(out', o) := main fuel' data school_df rest in
          (out ++ out', o)
      | Raised (ValueError c) rest =>
          let '(out', o) := main fuel' data school_df rest in
          (out ++ P_exception (ValueError c) :: out', o)
      | Raised e _ => (out, Uncaught e)
      end
  end.

(** Twenty-one schools, named and numbered from 0 on. *)
Definition table_21 : list row :=
  map (fun k => (String "S" (py_str k), 100 + k)) (map Z.of_nat (seq 0 21)).

(* ================================================================== *)
(** * Facts about the embedding *)

Lemma init_sample : init zero_rows sample_table = Ok sample_obj.
Proof. vm_compute. reflexivity. Qed.

(* ------------------------------------------------------------------ *)
(** ** Dict *)

Module DictFacts.
Section DictFacts.
Context {K V : Type}.
Variable eqb : K -> K -> bool.
Hypothesis eqb_eq : forall a b, eqb a b = true <-> a = b.

Lemma eqb_refl k : eqb k k = true.
Proof. apply eqb_eq. reflexivity. Qed.

Lemma eqb_neq a b : eqb a b = false <-> a <> b.
Proof.
  split; intros H.
  - intros E. apply eqb_eq in E. congruence.
  - destruct (eqb a b) eqn:E; [apply eqb_eq in E; contradiction | reflexivity].
Qed.

Lemma get_In k v (d : Dict.t (K := K) (V := V)) :
  Dict.get eqb k d = Some v -> In (k, v) d.
Proof.
  induction d as [|[k' v'] d IH]; simpl; [discriminate|].
  destruct (eqb k k') eqn:E.
  - intros H. injection H as ->. apply eqb_eq in E. subst. now left.
  - intros H. right. auto.
Qed.

Lemma get_None k (d : Dict.t (K := K) (V := V)) :
  Dict.get eqb k d = None <-> ~ In k (Dict.keys d).
Proof.
  induction d as [|[k' v'] d IH]; simpl.
  - tauto.
  - destruct (eqb k k') eqn:E.
    + apply eqb_eq in E. subst. split; [discriminate | intros H; exfalso; auto].
    + apply eqb_neq in E. rewrite IH. split; intros H.
      * intros [H1|H1]; [congruence | contradiction].
      * intros H1. apply H. now right.
Qed.

Lemma get_Some k (d : Dict.t (K := K) (V := V)) :
  In k (Dict.keys d) <-> exists v, Dict.get eqb k d = Some v.
Proof.
  destruct (Dict.get eqb k d) as [v|] eqn:E.
  - split; [eauto|]. intros _. apply get_In in E.
    apply (in_map fst) in E. exact E.
  - split; [|intros [v H]; discriminate].
    intros H. apply get_None in E. contradiction.
Qed.

Lemma get_set_same k v (d : Dict.t (K := K) (V := V)) :
  Dict.get eqb k (Dict.set eqb k v d) = Some v.
Proof.
  induction d as [|[k' v'] d IH]; simpl.
  - now rewrite eqb_refl.
  - destruct (eqb k k') eqn:E; simpl; rewrite E; auto.
Qed.

Lemma get_set_other k k' v (d : Dict.t (K := K) (V := V)) :
  k <> k' -> Dict.get eqb k' (Dict.set eqb k v d) = Dict.get eqb k' d.
Proof.
  intros N. induction d as [|[k0 v0] d IH]; simpl.
  - assert (E : eqb k' k = false) by (apply eqb_neq; congruence).
    now rewrite E.
  - destruct (eqb k k0) eqn:E; simpl.
    + apply eqb_eq in E. subst k0.
      assert (E' : eqb k' k = false) by (apply eqb_neq; congruence).
      now rewrite E'.
    + destruct (eqb k' k0); auto.
Qed.

(** Assigning a key that is not there yet appends the item. *)
Lemma set_fresh k v (d : Dict.t (K := K) (V := V)) :
  ~ In k (Dict.keys d) -> Dict.set eqb k v d = d ++ [(k, v)].
Proof.
  induction d as [|[k' v'] d IH]; simpl; intros H; [reflexivity|].
  assert (E : eqb k k' = false) by (apply eqb_neq; intros ->; auto).
  rewrite E, IH; auto.
Qed.

Lemma get_assign_all {R} (key : R -> K) (val : R -> V) k rows d :
  Dict.get eqb k (Dict.assign_all eqb key val rows d)
  = Dict.last_assigned eqb key val k rows (Dict.get eqb k d).
Proof.
  revert d. induction rows as [|r rows IH]; intros d; [reflexivity|].
  change (Dict.assign_all eqb key val (r :: rows) d)
    with (Dict.assign_all eqb key val rows (Dict.set eqb (key r) (val r) d)).
  rewrite IH. simpl. f_equal.
  destruct (eqb k (key r)) eqn:E.
  - apply eqb_eq in E. subst. apply get_set_same.
  - apply get_set_other. apply eqb_neq in E. congruence.
Qed.

Lemma last_assigned_In {R} (key : R -> K) (val : R -> V) k rows init v :
  Dict.last_assigned eqb key val k rows init = Some v ->
  init = Some v \/ exists r, In r rows /\ key r = k /\ val r = v.
Proof.
  revert init. induction rows as [|r rows IH]; intros init; simpl; [auto|].
  intros H. apply IH in H. destruct H as [H|[r' [H1 H2]]].
  - destruct (eqb k (key r)) eqn:E; [|auto].
    injection H as <-. apply eqb_eq in E. right. exists r. auto.
  - right. exists r'. auto.
Qed.

Lemma last_assigned_key {R} (key : R -> K) (val : R -> V) r rows init :
  In r rows -> exists v, Dict.last_assigned eqb key val (key r) rows init = Some v.
Proof.
  revert init. induction rows as [|r' rows IH]; intros init; simpl; [tauto|].
  intros [->|H]; [|auto].
  rewrite eqb_refl. clear IH.
  generalize (val r). induction rows as [|r' rows IH]; intros v; simpl; [eauto|].
  destruct (eqb (key r) (key r')); auto.
Qed.

(** With pairwise different keys the loop appends the rows as they come. *)
Lemma assign_all_NoDup {R} (key : R -> K) (val : R -> V) rows d :
  NoDup (Dict.keys d ++ map key rows) ->
  Dict.assign_all eqb key val rows d = d ++ map (fun r => (key r, val r)) rows.
Proof.
  revert d. induction rows as [|r rows IH]; intros d; simpl.
  - intros _. unfold Dict.assign_all. simpl. now rewrite app_nil_r.
  - intros H.
    change (Dict.assign_all eqb key val (r :: rows) d)
      with (Dict.assign_all eqb key val rows (Dict.set eqb (key r) (val r) d)).
    rewrite set_fresh.
    + rewrite IH.
      * now rewrite <- app_assoc.
      * unfold Dict.keys in *. rewrite map_app, <- app_assoc. exact H.
    + apply NoDup_remove_2 in H. intros H1. apply H. apply in_or_app. now left.
Qed.
End DictFacts.
End DictFacts.

(* ------------------------------------------------------------------ *)
(** ** [int(str(n)) == n] *)

Lemma digit_value_char d :
  0 <= d < 10 -> digit_value (digit_char d) = Some d.
Proof.
  intros H.
  assert (C : d = 0 \/ d = 1 \/ d = 2 \/ d = 3 \/ d = 4 \/ d = 5 \/ d = 6
              \/ d = 7 \/ d = 8 \/ d = 9) by lia.
  repeat (destruct C as [->|C]; [reflexivity|]). subst. reflexivity.
Qed.

(** A digit is neither a sign nor whitespace, so [int] starts the literal
    at it. *)
Lemma py_int_starts_with_digit c d s :
  digit_value c = Some d -> py_int (String c s) = scan_literal (String c s).
Proof.
  destruct c as [b0 b1 b2 b3 b4 b5 b6 b7].
  destruct b0, b1, b2, b3, b4, b5, b6, b7;
    first [ discriminate | intros _; reflexivity ].
Qed.

Lemma scan_digits_of fuel : forall n acc a,
  0 <= n ->
  scan_digits (digits_of fuel n acc) a false
  = scan_digits acc (shift fuel a n) false.
Proof.
  induction fuel as [|fuel IH]; intros n acc a Hn; [reflexivity|].
  cbn [digits_of shift]. destruct (n <? 10) eqn:E.
  - apply Z.ltb_lt in E. cbn [scan_digits].
    rewrite digit_value_char by (rewrite Z.mod_small; lia).
    rewrite Z.mod_small by lia. reflexivity.
  - apply Z.ltb_ge in E. rewrite IH by (apply Z.div_pos; lia).
    cbn [scan_digits]. rewrite digit_value_char by (apply Z.mod_pos_bound; lia).
    reflexivity.
Qed.

Lemma shift_0 fuel : forall n,
  0 <= n < 10 ^ Z.of_nat fuel -> shift fuel 0 n = n.
Proof.
  induction fuel as [|fuel IH]; intros n Hn.
  - change (10 ^ Z.of_nat 0) with 1 in Hn. cbn [shift]. lia.
  - cbn [shift]. destruct (n <? 10) eqn:E; [lia|].
    apply Z.ltb_ge in E.
    rewrite Nat2Z.inj_succ, Z.pow_succ_r in Hn by lia.
    rewrite IH.
    + pose proof (Z.div_mod n 10). lia.
    + split; [apply Z.div_pos; lia|].
      apply Z.div_lt_upper_bound; lia.
Qed.

Lemma digits_of_head fuel : forall n acc,
  0 <= n ->
  (exists c r d, acc = String c r /\ digit_value c = Some d) ->
  exists c r d, digits_of fuel n acc = String c r /\ digit_value c = Some d.
Proof.
  induction fuel as [|fuel IH]; intros n acc Hn Hacc; [exact Hacc|].
  cbn [digits_of]. destruct (n <? 10) eqn:E.
  - apply Z.ltb_lt in E. do 3 eexists. split; [reflexivity|].
    apply digit_value_char. rewrite Z.mod_small; lia.
  - apply Z.ltb_ge in E. apply IH; [apply Z.div_pos; lia|].
    do 3 eexists. split; [reflexivity|].
    apply digit_value_char. apply Z.mod_pos_bound. lia.
Qed.

Lemma log2_fuel n : 0 <= n -> n < 10 ^ Z.of_nat (S (Z.to_nat (Z.log2 n))).
Proof.
  intros Hn. rewrite Nat2Z.inj_succ, Z2Nat.id by apply Z.log2_nonneg.
  destruct (Z.eq_dec n 0) as [->|N]; [reflexivity|].
  pose proof (Z.log2_spec n ltac:(lia)) as [_ H].
  eapply Z.lt_le_trans; [exact H|].
  apply Z.pow_le_mono_l. lia.
Qed.

Lemma scan_literal_digits n :
  0 <= n ->
  py_int (digits_of (S (Z.to_nat (Z.log2 n))) n "") = Some n
  /\ scan_literal (digits_of (S (Z.to_nat (Z.log2 n))) n "") = Some n.
Proof.
  intros Hn.
  pose proof (log2_fuel n Hn) as Hf.
  set (fuel := S (Z.to_nat (Z.log2 n))) in *.
  assert (S : scan_digits (digits_of fuel n "") 0 false = Some n).
  { rewrite scan_digits_of by exact Hn. cbn [scan_digits].
    rewrite shift_0; [reflexivity|]. lia. }
  assert (H : exists c r d, digits_of fuel n "" = String c r
                            /\ digit_value c = Some d).
  { subst fuel. cbn [digits_of]. destruct (n <? 10) eqn:E.
    - apply Z.ltb_lt in E. do 3 eexists. split; [reflexivity|].
      apply digit_value_char. rewrite Z.mod_small; lia.
    - apply Z.ltb_ge in E. apply digits_of_head; [apply Z.div_pos; lia|].
      do 3 eexists. split; [reflexivity|].
      apply digit_value_char. apply Z.mod_pos_bound. lia. }
  destruct H as (c & r & d & Hs & Hd).
  assert (L : scan_literal (digits_of fuel n "") = Some n).
  { rewrite Hs in *. cbn [scan_literal scan_digits] in *.
    rewrite Hd in *. exact S. }
  split; [|exact L].
  rewrite Hs in *. erewrite py_int_starts_with_digit by exact Hd. exact L.
Qed.

Lemma py_int_py_str n : py_int (py_str n) = Some n.
Proof.
  unfold py_str. destruct (n <? 0) eqn:E.
  - apply Z.ltb_lt in E.
    destruct (scan_literal_digits (- n) ltac:(lia)) as [_ H].
    change (option_map Z.opp
              (scan_literal (digits_of (S (Z.to_nat (Z.log2 (- n)))) (- n) ""))
            = Some n).
    rewrite H. cbn [option_map]. f_equal. lia.
  - apply Z.ltb_ge in E. now apply scan_literal_digits.
Qed.

(* ------------------------------------------------------------------ *)
(** ** Construction *)

Lemma init_inv rows school_df self :
  init rows school_df = Ok self ->
  (exists a, np_array rows = Ok a /\ reshape_10_20_3 a = Ok (data self)) /\
  school_names_ids self
  = Dict.assign_all String.eqb fst snd (drop_duplicates school_df) [] /\
  school_ids_names self
  = Dict.assign_all Z.eqb snd fst (drop_duplicates school_df) [].
Proof.
  unfold init, bind. destruct (np_array rows) as [a|e]; [|discriminate].
  destruct (reshape_10_20_3 a) as [d|e] eqn:Ed; [|discriminate].
  unfold set_schools_and_ids. intros H. injection H as <-.
  split; [exists a; split; [reflexivity | assumption] | split; reflexivity].
Qed.

Lemma init_zero_rows school_df :
  init zero_rows school_df = Ok (zero_data school_df).
Proof. reflexivity. Qed.

(* ------------------------------------------------------------------ *)
(** ** Lookup *)

Section Lookup.
Variable self : SchoolData.
Variable s : string.

Let names := school_names_ids self.
Let ids := school_ids_names self.

Lemma look_up_by_name c :
  Dict.get String.eqb s names = Some c -> look_up_school self s = Ok (s, c).
Proof. unfold look_up_school. subst names. now intros ->. Qed.

Lemma look_up_not_literal :
  Dict.get String.eqb s names = None -> py_int s = None ->
  look_up_school self s = Raise (ValueError (Invalid_literal s)).
Proof. unfold look_up_school. subst names. now intros -> ->. Qed.

Lemma look_up_by_code z n :
  Dict.get String.eqb s names = None -> py_int s = Some z ->
  Dict.get Z.eqb z ids = Some n ->
  look_up_school self s = Ok (n, z).
Proof. unfold look_up_school. subst names ids. now intros -> -> ->. Qed.

Lemma look_up_unknown_code z :
  Dict.get String.eqb s names = None -> py_int s = Some z ->
  Dict.get Z.eqb z ids = None ->
  look_up_school self s = Raise (ValueError Not_valid_school).
Proof. unfold look_up_school. subst names ids. now intros -> -> ->. Qed.
End Lookup.

(** C1. Resolution order of [look_up_school] on a string: an exact
    (case-sensitive) match among the names wins and returns the name with
    its code; only without such a match is the string converted with [int]
    and looked up among the codes, returning the code's name with the code;
    when the conversion fails, or the number is not a code, the lookup
    fails, the failure being a [ValueError]. *)
Theorem look_up_school_resolution (self : SchoolData) (s : string) :
  (In s (Dict.keys (school_names_ids self)) ->
   exists c, Dict.get String.eqb s (school_names_ids self) = Some c
             /\ look_up_school self s = Ok (s, c))
  /\
  (~ In s (Dict.keys (school_names_ids self)) ->
   (py_int s = None -> is_ValueError (look_up_school self s) = true)
   /\
   (forall z, py_int s = Some z ->
      (forall n, Dict.get Z.eqb z (school_ids_names self) = Some n ->
                 look_up_school self s = Ok (n, z))
      /\
      (~ In z (Dict.keys (school_ids_names self)) ->
       is_ValueError (look_up_school self s) = true))).
Proof.
  split.
  - intros H. apply (DictFacts.get_Some _ String.eqb_eq) in H.
    destruct H as [c Hc]. exists c. split; [exact Hc|].
    now apply look_up_by_name.
  - intros H. apply (DictFacts.get_None _ String.eqb_eq) in H. split.
    + intros Hi. now rewrite look_up_not_literal.
    + intros z Hz. split.
      * intros n Hn. now apply look_up_by_code.
      * intros Hc. apply (DictFacts.get_None _ Z.eqb_eq) in Hc.
        now rewrite (look_up_unknown_code _ _ z).
Qed.

Lemma look_up_school_resolution_witness :
  look_up_school sample_obj "Beta High" = Ok ("Beta High", 202)
  /\ look_up_school sample_obj "202" = Ok ("Beta High", 202)
  /\ is_ValueError (look_up_school sample_obj "beta high") = true
  /\ is_ValueError (look_up_school sample_obj "303") = true.
Proof.
  assert (N : forall x, x <> "Alpha High" -> x <> "Beta High" ->
                        ~ In x (Dict.keys (school_names_ids sample_obj))).
  { intros x H1 H2 [H|[H|[]]]; cbn in H; congruence. }
  split; [|split; [|split]].
  - destruct (look_up_school_resolution sample_obj "Beta High") as [H _].
    destruct H as [c [Hc H]]; [right; left; reflexivity|].
    injection Hc as <-. exact H.
  - destruct (look_up_school_resolution sample_obj "202") as [_ H].
    destruct H as [_ H]; [apply N; discriminate|].
    destruct (H 202 eq_refl) as [H1 _]. apply H1. reflexivity.
  - destruct (look_up_school_resolution sample_obj "beta high") as [_ H].
    destruct H as [H _]; [apply N; discriminate|].
    apply H. reflexivity.
  - destruct (look_up_school_resolution sample_obj "303") as [_ H].
    destruct H as [_ H]; [apply N; discriminate|].
    destruct (H 303 eq_refl) as [_ H2]. apply H2.
    intros [E|[E|[]]]; discriminate.
Defined.

(** C10. On every string [look_up_school] returns a (name, code) pair or
    raises a [ValueError] and nothing else.  A string that is no school
    name and no integer literal fails inside [int], with the conversion's
    own [ValueError]; the message of the [raise] statement appears exactly
    for the strings that are no school name and convert to a number absent
    from the codes. *)
Theorem look_up_school_only_ValueError (self : SchoolData) (s : string) :
  ((exists n c, look_up_school self s = Ok (n, c))
   \/ is_ValueError (look_up_school self s) = true)
  /\
  (~ In s (Dict.keys (school_names_ids self)) -> py_int s = None ->
   look_up_school self s = Raise (ValueError (Invalid_literal s)))
  /\
  (look_up_school self s = Raise (ValueError Not_valid_school) <->
   ~ In s (Dict.keys (school_names_ids self))
   /\ exists z, py_int s = Some z
                /\ ~ In z (Dict.keys (school_ids_names self))).
Proof.
  split; [|split].
  - unfold look_up_school.
    destruct (Dict.get String.eqb s (school_names_ids self)); [eauto|].
    destruct (py_int s) as [z|]; [|now right].
    destruct (Dict.get Z.eqb z (school_ids_names self)); [eauto|now right].
  - intros H Hi. apply (DictFacts.get_None _ String.eqb_eq) in H.
    now apply look_up_not_literal.
  - rewrite <- (DictFacts.get_None _ String.eqb_eq). split.
    + unfold look_up_school.
      destruct (Dict.get String.eqb s (school_names_ids self));
        [discriminate|].
      destruct (py_int s) as [z|]; [|discriminate].
      destruct (Dict.get Z.eqb z (school_ids_names self)) eqn:E;
        [discriminate|].
      intros _. split; [reflexivity|]. exists z. split; [reflexivity|].
      now apply (DictFacts.get_None _ Z.eqb_eq).
    + intros [Hn [z [Hz Hc]]]. apply (DictFacts.get_None _ Z.eqb_eq) in Hc.
      now apply (look_up_unknown_code _ _ z).
Qed.

Lemma look_up_school_only_ValueError_witness :
  look_up_school sample_obj "Gamma High"
  = Raise (ValueError (Invalid_literal "Gamma High"))
  /\ look_up_school sample_obj " 3_03 " = Raise (ValueError Not_valid_school).
Proof.
  assert (N : forall x, x <> "Alpha High" -> x <> "Beta High" ->
                        ~ In x (Dict.keys (school_names_ids sample_obj))).
  { intros x H1 H2 [H|[H|[]]]; cbn in H; congruence. }
  split.
  - destruct (look_up_school_only_ValueError sample_obj "Gamma High")
      as [_ [H _]].
    apply H; [apply N; discriminate | reflexivity].
  - destruct (look_up_school_only_ValueError sample_obj " 3_03 ")
      as [_ [_ H]].
    apply H. split; [apply N; discriminate|].
    exists 303. split; [reflexivity|].
    intros [E|[E|[]]]; discriminate.
Defined.

(* ------------------------------------------------------------------ *)
(** ** The deduplicated table *)

Lemma row_eqb_eq (a b : row) : row_eqb a b = true <-> a = b.
Proof.
  destruct a as [n c], b as [n' c']. unfold row_eqb. cbn [fst snd].
  rewrite andb_true_iff, String.eqb_eq, Z.eqb_eq.
  split; [intros [-> ->]; reflexivity | intros H; injection H; auto].
Qed.

Lemma row_eqb_neq (a b : row) : row_eqb a b = false <-> a <> b.
Proof.
  rewrite <- row_eqb_eq. destruct (row_eqb a b); intuition congruence.
Qed.

Lemma drop_duplicates_In r rows : In r (drop_duplicates rows) <-> In r rows.
Proof.
  induction rows as [|x rows IH]; cbn [drop_duplicates In]; [tauto|].
  rewrite filter_In, IH, negb_true_iff, row_eqb_neq.
  destruct (row_eqb x r) eqn:E.
  - apply row_eqb_eq in E. tauto.
  - apply row_eqb_neq in E. tauto.
Qed.

Lemma drop_duplicates_NoDup rows : NoDup (drop_duplicates rows).
Proof.
  induction rows as [|x rows IH]; cbn [drop_duplicates]; constructor.
  - rewrite filter_In, negb_true_iff, row_eqb_neq. tauto.
  - now apply NoDup_filter.
Qed.

Lemma drop_duplicates_id rows : NoDup rows -> drop_duplicates rows = rows.
Proof.
  induction 1 as [|x rows Hx Hn IH]; cbn [drop_duplicates]; [reflexivity|].
  rewrite IH. f_equal. clear IH Hn.
  induction rows as [|y rows IH]; cbn [filter]; [reflexivity|].
  assert (E : row_eqb x y = false)
    by (apply row_eqb_neq; intros ->; apply Hx; now left).
  rewrite E. cbn [negb]. f_equal. apply IH. intros H. apply Hx. now right.
Qed.

Lemma drop_duplicates_idem rows :
  drop_duplicates (drop_duplicates rows) = drop_duplicates rows.
Proof. apply drop_duplicates_id, drop_duplicates_NoDup. Qed.

Lemma NoDup_map_on {A B} (f : A -> B) (l : list A) :
  (forall x y, In x l -> In y l -> f x = f y -> x = y) ->
  NoDup l -> NoDup (map f l).
Proof.
  intros Hf Hl. induction Hl as [|x l Hx Hl IH]; cbn [map]; constructor.
  - rewrite in_map_iff. intros [y [E Hy]].
    assert (y = x) by (apply Hf; [now right | now left | exact E]).
    subst. contradiction.
  - apply IH. intros a b Ha Hb. apply Hf; now right.
Qed.

(** Without a name that carries two codes, the names of the deduplicated
    rows are pairwise different. *)
Lemma names_NoDup rows :
  names_functional rows -> NoDup (map fst (drop_duplicates rows)).
Proof.
  intros F. apply NoDup_map_on; [|apply drop_duplicates_NoDup].
  intros [n c] [n' c'] H1 H2. cbn [fst]. intros <-.
  apply -> drop_duplicates_In in H1. apply -> drop_duplicates_In in H2.
  f_equal. eapply F; eassumption.
Qed.

Lemma map_pair_id (rows : list row) :
  map (fun r => (fst r, snd r)) rows = rows.
Proof.
  induction rows as [|[n c] rows IH]; cbn [map fst snd];
    [reflexivity | now rewrite IH].
Qed.

(** ... and the name-to-code dict lists exactly the deduplicated rows. *)
Lemma names_dict_is_table rows :
  names_functional rows ->
  fst (set_schools_and_ids rows) = drop_duplicates rows.
Proof.
  intros F. unfold set_schools_and_ids. cbn [fst].
  rewrite (DictFacts.assign_all_NoDup _ String.eqb_eq).
  - cbn [app]. apply map_pair_id.
  - cbn [Dict.keys map app]. now apply names_NoDup.
Qed.

Lemma list_index_first (l : list Z) : forall i c,
  nth_error l i = Some c ->
  (forall j, (j < i)%nat -> nth_error l j <> Some c) ->
  list_index c l = Some i.
Proof.
  induction l as [|y l IH]; intros i c Hi Hj.
  - destruct i; discriminate.
  - cbn [list_index]. destruct i as [|i].
    + cbn in Hi. injection Hi as ->. now rewrite Z.eqb_refl.
    + destruct (Z.eqb c y) eqn:E.
      * apply Z.eqb_eq in E. subst y. exfalso.
        apply (Hj O); [lia | reflexivity].
      * rewrite (IH i c); [reflexivity | exact Hi |].
        intros j Hlt. apply (Hj (S j)). lia.
Qed.

Lemma nth_error_codes (rows : list row) : forall j c,
  nth_error (map snd rows) j = Some c ->
  exists n, nth_error rows j = Some (n, c).
Proof.
  induction rows as [|[n' c'] rows IH]; intros [|j] c; cbn; try discriminate.
  - intros H. injection H as ->. eauto.
  - apply IH.
Qed.

Lemma list_index_None (l : list Z) c : ~ In c l -> list_index c l = None.
Proof.
  induction l as [|y l IH]; cbn [list_index In]; [reflexivity|].
  intros H. destruct (Z.eqb c y) eqn:E.
  - apply Z.eqb_eq in E. subst. tauto.
  - rewrite IH; [reflexivity | tauto].
Qed.

(** What the two dicts hold: the value of the last deduplicated row with
    that key. *)
Lemma names_get rows n :
  Dict.get String.eqb n (fst (set_schools_and_ids rows))
  = Dict.last_assigned String.eqb fst snd n (drop_duplicates rows) None.
Proof.
  unfold set_schools_and_ids. cbn [fst].
  now rewrite (DictFacts.get_assign_all _ String.eqb_eq).
Qed.

Lemma ids_get rows c :
  Dict.get Z.eqb c (snd (set_schools_and_ids rows))
  = Dict.last_assigned Z.eqb snd fst c (drop_duplicates rows) None.
Proof.
  unfold set_schools_and_ids. cbn [snd].
  now rewrite (DictFacts.get_assign_all _ Z.eqb_eq).
Qed.

Lemma names_get_In rows n c :
  Dict.get String.eqb n (fst (set_schools_and_ids rows)) = Some c ->
  In (n, c) rows.
Proof.
  rewrite names_get. intros H.
  apply (DictFacts.last_assigned_In _ String.eqb_eq) in H.
  destruct H as [H|[[n' c'] [H [E1 E2]]]]; [discriminate|].
  cbn in E1, E2. subst. apply -> drop_duplicates_In. exact H.
Qed.

Lemma ids_get_In rows n c :
  Dict.get Z.eqb c (snd (set_schools_and_ids rows)) = Some n ->
  In (n, c) rows.
Proof.
  rewrite ids_get. intros H.
  apply (DictFacts.last_assigned_In _ Z.eqb_eq) in H.
  destruct H as [H|[[n' c'] [H [E1 E2]]]]; [discriminate|].
  cbn in E1, E2. subst. apply -> drop_duplicates_In. exact H.
Qed.

Lemma names_get_functional rows n c :
  names_functional rows -> In (n, c) rows ->
  Dict.get String.eqb n (fst (set_schools_and_ids rows)) = Some c.
Proof.
  intros F H. pose proof H as H'. apply <- drop_duplicates_In in H'.
  destruct (DictFacts.last_assigned_key String.eqb String.eqb_eq
              fst snd (n, c) (drop_duplicates rows) None H') as [c' Hc'].
  cbn [fst] in Hc'. rewrite <- names_get in Hc'. rewrite Hc'. f_equal.
  apply names_get_In in Hc'. eapply F; eassumption.
Qed.

Lemma ids_get_functional rows n c :
  codes_functional rows -> In (n, c) rows ->
  Dict.get Z.eqb c (snd (set_schools_and_ids rows)) = Some n.
Proof.
  intros F H. pose proof H as H'. apply <- drop_duplicates_In in H'.
  destruct (DictFacts.last_assigned_key Z.eqb Z.eqb_eq
              snd fst (n, c) (drop_duplicates rows) None H') as [n' Hn'].
  cbn [snd] in Hn'. rewrite <- ids_get in Hn'. rewrite Hn'. f_equal.
  apply ids_get_In in Hn'. eapply F; eassumption.
Qed.

Lemma sample_table_functional :
  names_functional sample_table /\ codes_functional sample_table.
Proof.
  split.
  - intros n c c' H1 H2. cbn in H1, H2.
    destruct H1 as [H1|[H1|[H1|[]]]], H2 as [H2|[H2|[H2|[]]]]; congruence.
  - intros n n' c H1 H2. cbn in H1, H2.
    destruct H1 as [H1|[H1|[H1|[]]]], H2 as [H2|[H2|[H2|[]]]]; congruence.
Qed.

(* ------------------------------------------------------------------ *)
(** ** Building the index *)

(** C3, as stated, fails: a table in which "Alpha High" carries the codes
    101 and 303 is accepted; the dicts are built, code 101 names
    "Alpha High" and "Alpha High" maps to 303. *)
Lemma conflicting_table_accepted :
  In ("Alpha High", 101) (drop_duplicates conflicting_table)
  /\ In ("Alpha High", 303) (drop_duplicates conflicting_table)
  /\ init zero_rows conflicting_table = Ok (zero_data conflicting_table)
  /\ Dict.get Z.eqb 101 (school_ids_names (zero_data conflicting_table))
     = Some "Alpha High"
  /\ Dict.get String.eqb "Alpha High"
       (school_names_ids (zero_data conflicting_table))
     = Some 303.
Proof.
  split; [now left|]. split; [right; right; now left|].
  split; [apply init_zero_rows|]. split; reflexivity.
Qed.

(** C3, amended.  [set_schools_and_ids] checks nothing and raises nothing:
    with rows that reshape, construction succeeds for every table.  Each
    name maps to the code of the last deduplicated row carrying the name
    and each code to the name of the last deduplicated row carrying the
    code.  When no name of the table carries two codes and no code two
    names, the two dicts are inverse to each other. *)
Theorem set_schools_and_ids_last_row_wins (school_df : list row) :
  (forall rows, rectangular rows = true -> length (concat rows) = 600%nat ->
                is_ok (init rows school_df) = true)
  /\
  (forall n,
     Dict.get String.eqb n (fst (set_schools_and_ids school_df))
     = Dict.last_assigned String.eqb fst snd n
         (drop_duplicates school_df) None)
  /\
  (forall c,
     Dict.get Z.eqb c (snd (set_schools_and_ids school_df))
     = Dict.last_assigned Z.eqb snd fst c (drop_duplicates school_df) None)
  /\
  (names_functional school_df -> codes_functional school_df ->
   forall n c,
     Dict.get String.eqb n (fst (set_schools_and_ids school_df)) = Some c
     <-> Dict.get Z.eqb c (snd (set_schools_and_ids school_df)) = Some n).
Proof.
  split.
  { intros rows R L. unfold init, np_array, reshape_10_20_3, bind.
    rewrite R, L. cbn [Nat.eqb].
    now destruct (set_schools_and_ids school_df). }
  split; [apply names_get|]. split; [apply ids_get|].
  intros Fn Fc n c. split; intros H.
  - apply ids_get_functional; [exact Fc|]. now apply names_get_In.
  - apply names_get_functional; [exact Fn|]. now apply ids_get_In.
Qed.

Lemma set_schools_and_ids_last_row_wins_witness :
  Dict.get String.eqb "Beta High" (fst (set_schools_and_ids sample_table))
  = Some 202
  <-> Dict.get Z.eqb 202 (snd (set_schools_and_ids sample_table))
      = Some "Beta High".
Proof.
  destruct (set_schools_and_ids_last_row_wins sample_table) as (_ & _ & _ & H).
  apply H; apply sample_table_functional.
Defined.

(** C8, as stated, fails on its second half: in [conflicting_table] the
    pair ("Alpha High", 303) is the third one seen, but code 303 sits at
    position 0; and code 101, whose pair is the first one seen, has no
    position at all. *)
Lemma position_not_first_seen_order :
  nth_error (drop_duplicates conflicting_table) 2 = Some ("Alpha High", 303)
  /\ position_of_code (zero_data conflicting_table) 303 = Ok 0%nat
  /\ nth_error (drop_duplicates conflicting_table) 0 = Some ("Alpha High", 101)
  /\ position_of_code (zero_data conflicting_table) 101
     = Raise (ValueError (Not_in_list 101)).
Proof. repeat split. Qed.

(** C8, amended.  A table and its deduplicated form build the same two
    dicts.  When no name of the table carries two codes, the position of a
    code is the zero-based first-seen order of the first (name, code) pair
    that carries the code; when moreover no code carries two names, it is
    the first-seen order of the code's only pair. *)
Theorem set_schools_and_ids_dedup (school_df : list row) :
  set_schools_and_ids (drop_duplicates school_df)
  = set_schools_and_ids school_df
  /\
  (names_functional school_df ->
   forall self i n c,
     school_names_ids self = fst (set_schools_and_ids school_df) ->
     nth_error (drop_duplicates school_df) i = Some (n, c) ->
     ((forall j n', (j < i)%nat ->
         nth_error (drop_duplicates school_df) j <> Some (n', c))
      \/ codes_functional school_df) ->
     position_of_code self c = Ok i).
Proof.
  split.
  - unfold set_schools_and_ids. now rewrite drop_duplicates_idem.
  - intros Fn self i n c Hs Hi Hfirst.
    assert (First : forall j n', (j < i)%nat ->
              nth_error (drop_duplicates school_df) j <> Some (n', c)).
    { destruct Hfirst as [H|Fc]; [exact H|].
      intros j n' Hlt Hj.
      assert (n' = n).
      { apply (Fc n' n c); apply -> drop_duplicates_In;
          eapply nth_error_In; eassumption. }
      subst n'.
      pose proof (proj1 (NoDup_nth_error (drop_duplicates school_df))
                    (drop_duplicates_NoDup school_df) j i) as Hinj.
      assert (j = i); [|lia].
      apply Hinj; [|congruence].
      apply nth_error_Some. congruence. }
    unfold position_of_code. rewrite Hs, names_dict_is_table by exact Fn.
    unfold Dict.values.
    rewrite (list_index_first _ i c); [reflexivity | |].
    + exact (map_nth_error snd i (drop_duplicates school_df) Hi).
    + intros j Hlt Hj. apply nth_error_codes in Hj. destruct Hj as [n' Hj].
      now apply (First j n').
Qed.

Lemma set_schools_and_ids_dedup_witness :
  position_of_code (zero_data sample_table) 101 = Ok 0%nat
  /\ position_of_code (zero_data sample_table) 202 = Ok 1%nat.
Proof.
  destruct (set_schools_and_ids_dedup sample_table) as [_ H].
  pose proof sample_table_functional as [Fn Fc].
  split.
  - apply (H Fn _ 0%nat "Alpha High" 101);
      [reflexivity | reflexivity | now right].
  - apply (H Fn _ 1%nat "Beta High" 202); [reflexivity | reflexivity |].
    left. intros j n' Hlt. assert (j = 0%nat) as -> by lia. discriminate.
Defined.

(** C7, as stated, fails.  With a school named "202" whose code is 101,
    [str(202)] resolves by name to ("202", 101) although code 202 names
    "Beta High", which resolves to ("Beta High", 202).  With a name that
    carries two codes, code 101 resolves to ("Alpha High", 101) and its
    name to ("Alpha High", 303). *)
Lemma code_and_name_disagree :
  (init zero_rows digit_named_table = Ok (zero_data digit_named_table)
   /\ Dict.get Z.eqb 202 (school_ids_names (zero_data digit_named_table))
      = Some "Beta High"
   /\ look_up_school (zero_data digit_named_table) (py_str 202)
      = Ok ("202", 101)
   /\ look_up_school (zero_data digit_named_table) "Beta High"
      = Ok ("Beta High", 202))
  /\
  (init zero_rows conflicting_table = Ok (zero_data conflicting_table)
   /\ Dict.get Z.eqb 101 (school_ids_names (zero_data conflicting_table))
      = Some "Alpha High"
   /\ look_up_school (zero_data conflicting_table) (py_str 101)
      = Ok ("Alpha High", 101)
   /\ look_up_school (zero_data conflicting_table) "Alpha High"
      = Ok ("Alpha High", 303)).
Proof. repeat split. Qed.

(** C7, amended.  For an index built from a table in which no name carries
    two codes, and a code [c] of the index whose decimal string is not
    itself a school name, resolving [str(c)] and resolving the name of [c]
    both return (name of [c], [c]). *)
Theorem look_up_code_and_name_agree rows school_df self c n :
  init rows school_df = Ok self ->
  names_functional school_df ->
  Dict.get Z.eqb c (school_ids_names self) = Some n ->
  ~ In (py_str c) (Dict.keys (school_names_ids self)) ->
  look_up_school self (py_str c) = Ok (n, c)
  /\ look_up_school self n = Ok (n, c).
Proof.
  intros Hi Fn Hc Hs. apply init_inv in Hi. destruct Hi as (_ & Hn & Hd).
  split.
  - apply look_up_by_code; [| apply py_int_py_str | exact Hc].
    now apply (DictFacts.get_None _ String.eqb_eq).
  - apply look_up_by_name.
    change (Dict.assign_all Z.eqb snd fst (drop_duplicates school_df) [])
      with (snd (set_schools_and_ids school_df)) in Hd.
    change (Dict.assign_all String.eqb fst snd (drop_duplicates school_df) [])
      with (fst (set_schools_and_ids school_df)) in Hn.
    rewrite Hd in Hc. rewrite Hn.
    apply names_get_functional; [exact Fn|]. now apply ids_get_In.
Qed.

Lemma look_up_code_and_name_agree_witness :
  look_up_school (zero_data sample_table) (py_str 202) = Ok ("Beta High", 202)
  /\ look_up_school (zero_data sample_table) "Beta High"
     = Ok ("Beta High", 202).
Proof.
  apply (look_up_code_and_name_agree zero_rows sample_table).
  - apply init_zero_rows.
  - apply sample_table_functional.
  - reflexivity.
  - intros [H|[H|[]]]; discriminate.
Defined.

(* ------------------------------------------------------------------ *)
(** ** Shape of the tensor *)

Lemma init_is_ok rows school_df :
  is_ok (init rows school_df)
  = rectangular rows && Nat.eqb (length (concat rows)) 600.
Proof.
  unfold init, np_array, reshape_10_20_3, bind.
  destruct (rectangular rows); [|reflexivity].
  destruct (Nat.eqb (length (concat rows)) 600); [|reflexivity].
  destruct (set_schools_and_ids school_df). reflexivity.
Qed.

Lemma init_raises_ValueError rows school_df :
  is_ok (init rows school_df) = false ->
  is_ValueError (init rows school_df) = true.
Proof.
  unfold init, np_array, reshape_10_20_3, bind.
  destruct (rectangular rows); [|reflexivity].
  destruct (Nat.eqb (length (concat rows)) 600); [|reflexivity].
  destruct (set_schools_and_ids school_df). discriminate.
Qed.

Lemma init_builds rows school_df :
  rectangular rows = true -> length (concat rows) = 600%nat ->
  exists self,
    init rows school_df = Ok self
    /\ school_names_ids self = fst (set_schools_and_ids school_df)
    /\ school_ids_names self = snd (set_schools_and_ids school_df).
Proof.
  intros R L. unfold init, np_array, reshape_10_20_3, bind.
  rewrite R, L. cbn [Nat.eqb].
  destruct (set_schools_and_ids school_df) as [names ids].
  eexists. split; [reflexivity|]. split; reflexivity.
Qed.

Lemma chunks_length {A} n k (l : list A) : length (chunks n k l) = n.
Proof.
  revert l. induction n as [|n IH]; intros l; cbn [chunks length];
    [reflexivity | now rewrite IH].
Qed.

Lemma reshape_shape flat d :
  reshape_10_20_3 flat = Ok d -> shape d = (10, 20, 3)%nat.
Proof.
  unfold reshape_10_20_3. destruct (Nat.eqb (length flat) 600) eqn:E;
    [|discriminate].
  apply Nat.eqb_eq in E. intros H.
  apply (f_equal (fun r => match r with Ok x => x | Raise _ => d end)) in H.
  cbv beta iota in H. subst d. unfold shape.
  change (nth 0 (map (chunks 20 3) (chunks 10 60 flat)) [])
    with (chunks 20 3 (firstn 60 flat)).
  change (nth 0 (chunks 20 3 (firstn 60 flat)) [])
    with (firstn 3 (firstn 60 flat)).
  rewrite length_map, !chunks_length, !length_firstn, E. reflexivity.
Qed.

Lemma uniform_rows (rows : list (list cell)) k :
  Forall (fun r => length r = k) rows ->
  rectangular rows = true /\ length (concat rows) = (k * length rows)%nat.
Proof.
  intros H. split.
  - destruct H as [|r rows Hr H]; [reflexivity|].
    cbn [rectangular]. apply forallb_forall. intros r' Hr'.
    rewrite Forall_forall in H. rewrite (H r' Hr'), Hr. apply Nat.eqb_refl.
  - induction H as [|r rows Hr H IH]; cbn [concat length]; [lia|].
    rewrite length_app, IH, Hr. lia.
Qed.

(** C5, as stated, fails: twenty rows of thirty values are accepted. *)
Lemma twenty_rows_accepted :
  length rows_20_by_30 = 20%nat
  /\ Forall (fun r => length r = 30%nat) rows_20_by_30
  /\ init rows_20_by_30 sample_table = Ok sample_obj.
Proof.
  split; [reflexivity|]. split; [|vm_compute; reflexivity].
  apply Forall_forall. intros r Hr. apply repeat_spec in Hr. now subst.
Qed.

(** C5, amended.  Construction succeeds exactly when the rows have one
    common length and hold 600 values in all; any failure is a
    [ValueError].  Ten rows of 60 values are accepted, and every accepted
    input gives a container of shape (10, 20, 3). *)
Theorem init_checks_total_size rows school_df :
  (is_ok (init rows school_df) = true <->
   rectangular rows = true /\ length (concat rows) = 600%nat)
  /\
  (is_ok (init rows school_df) = false ->
   is_ValueError (init rows school_df) = true)
  /\
  (length rows = 10%nat -> Forall (fun r => length r = 60%nat) rows ->
   is_ok (init rows school_df) = true)
  /\
  (forall self, init rows school_df = Ok self ->
                data_shape_dim self = ((10, 20, 3), 3)%nat).
Proof.
  split; [|split; [|split]].
  - rewrite init_is_ok, andb_true_iff, Nat.eqb_eq. reflexivity.
  - apply init_raises_ValueError.
  - intros L F. apply uniform_rows in F. destruct F as [R C].
    rewrite init_is_ok, R, C, L. reflexivity.
  - intros self H. apply init_inv in H. destruct H as [[a [_ H]] _].
    unfold data_shape_dim. now rewrite (reshape_shape a).
Qed.

Lemma init_checks_total_size_witness :
  is_ok (init zero_rows sample_table) = true
  /\ data_shape_dim sample_obj = ((10, 20, 3), 3)%nat.
Proof.
  destruct (init_checks_total_size zero_rows sample_table)
    as (_ & _ & H10 & Hshape).
  split.
  - apply H10; [reflexivity|].
    apply Forall_forall. intros r Hr. apply repeat_spec in Hr. now subst.
  - apply Hshape. exact init_sample.
Defined.

(** C4, as stated, fails: a table with two unique schools, and the empty
    table, are accepted next to a tensor with twenty school columns. *)
Lemma school_count_not_checked :
  length (drop_duplicates sample_table) = 2%nat
  /\ init zero_rows sample_table = Ok sample_obj
  /\ length (drop_duplicates []) = 0%nat
  /\ init zero_rows [] = Ok (zero_data []).
Proof. split; [reflexivity|]. split; [exact init_sample|]. split; reflexivity. Qed.

(** C4, amended.  Construction never compares the number of unique schools
    with the school axis: whether it succeeds is the same for every school
    table, and with rows of one common length holding 600 values it
    succeeds for every table and holds the dicts built from that table. *)
Theorem init_ignores_school_count rows school_df :
  (forall school_df',
     is_ok (init rows school_df) = is_ok (init rows school_df'))
  /\
  (rectangular rows = true -> length (concat rows) = 600%nat ->
   exists self,
     init rows school_df = Ok self
     /\ school_names_ids self = fst (set_schools_and_ids school_df)
     /\ school_ids_names self = snd (set_schools_and_ids school_df)).
Proof.
  split.
  - intros t'. now rewrite !init_is_ok.
  - apply init_builds.
Qed.

Lemma init_ignores_school_count_witness :
  exists self,
    init zero_rows conflicting_table = Ok self
    /\ school_names_ids self = fst (set_schools_and_ids conflicting_table)
    /\ school_ids_names self = snd (set_schools_and_ids conflicting_table).
Proof.
  destruct (init_ignores_school_count zero_rows conflicting_table) as [_ H].
  apply H; reflexivity.
Defined.

(* ------------------------------------------------------------------ *)
(** ** Statistics *)

Lemma fold_fadd_NaN l : fold_left fadd l NaN = NaN.
Proof. induction l as [|x l IH]; cbn [fold_left fadd]; auto. Qed.

(** [np.sum] and [np.mean] propagate a NaN. *)
Lemma np_sum_NaN l : In NaN l -> np_sum l = NaN.
Proof.
  unfold np_sum. generalize (Fin 0).
  induction l as [|x l IH]; intros a; cbn [In fold_left]; [tauto|].
  intros [->|H]; [|auto].
  destruct a; cbn [fadd]; apply fold_fadd_NaN.
Qed.

Lemma np_mean_NaN l : In NaN l -> np_mean l = NaN.
Proof. intros H. unfold np_mean. now rewrite np_sum_NaN. Qed.

Lemma fold_fadd_finite l : forall a,
  Forall finite l -> finite (fold_left fadd l (Fin a)).
Proof.
  induction l as [|x l IH]; intros a H; cbn [fold_left].
  - now exists a.
  - inversion H as [|? ? [q ->] Hl]; subst. cbn [fadd]. now apply IH.
Qed.

Lemma np_mean_finite l : l <> [] -> Forall finite l -> finite (np_mean l).
Proof.
  intros N H. unfold np_mean, np_sum.
  destruct (fold_fadd_finite l 0 H) as [q ->].
  destruct l as [|x l]; [congruence|]. unfold of_nat, fdiv.
  destruct (Qeq_bool (inject_Z (Z.of_nat (length (x :: l)))) 0) eqn:E.
  - apply Qeq_bool_eq in E. unfold Qeq, inject_Z in E. cbn [Qnum Qden] in E.
    cbn [length] in E. lia.
  - eexists. reflexivity.
Qed.

Lemma insert_sorted_In x y l : In x (insert_sorted y l) <-> x = y \/ In x l.
Proof.
  induction l as [|z l IH]; cbn [insert_sorted In]; [intuition|].
  destruct (fle y z); cbn [In]; rewrite ?IH; intuition.
Qed.

Lemma np_sort_In x l : In x (np_sort l) <-> In x l.
Proof.
  induction l as [|y l IH]; cbn [np_sort fold_right In]; [tauto|].
  fold (np_sort l). rewrite insert_sorted_In, IH. intuition.
Qed.

Lemma insert_sorted_length y l :
  length (insert_sorted y l) = S (length l).
Proof.
  induction l as [|z l IH]; cbn [insert_sorted length]; [reflexivity|].
  destruct (fle y z); cbn [length]; auto.
Qed.

Lemma np_sort_length l : length (np_sort l) = length l.
Proof.
  induction l as [|y l IH]; cbn [np_sort fold_right length]; [reflexivity|].
  fold (np_sort l). now rewrite insert_sorted_length, IH.
Qed.

Lemma fle_total x y : fle x y = false -> fle y x = true.
Proof.
  destruct x as [|a], y as [|b]; cbn [fle]; try congruence.
  intros H. apply Qle_bool_iff. apply Qlt_le_weak, Qnot_le_lt.
  intros L. apply Qle_bool_iff in L. congruence.
Qed.

Lemma insert_sorted_perm x l : Permutation (x :: l) (insert_sorted x l).
Proof.
  induction l as [|y l IH]; cbn [insert_sorted]; [reflexivity|].
  destruct (fle x y); [reflexivity|].
  rewrite perm_swap. now apply perm_skip.
Qed.

(** [np_sort] rearranges the array in non-decreasing order. *)
Lemma np_sort_perm l : Permutation l (np_sort l).
Proof.
  induction l as [|x l IH]; cbn [np_sort fold_right]; [reflexivity|].
  fold (np_sort l). rewrite <- insert_sorted_perm. now apply perm_skip.
Qed.

Lemma insert_sorted_sorted x l :
  Sorted (fun a b => fle a b = true) l ->
  Sorted (fun a b => fle a b = true) (insert_sorted x l).
Proof.
  induction l as [|y l IH]; cbn [insert_sorted]; intros H.
  - repeat constructor.
  - destruct (fle x y) eqn:E.
    + constructor; [exact H | now constructor].
    + apply Sorted_inv in H. destruct H as [Hl Hy].
      constructor; [now apply IH|].
      destruct l as [|z l]; cbn [insert_sorted].
      * constructor. now apply fle_total.
      * destruct (fle x z); constructor;
          [now apply fle_total | now inversion Hy].
Qed.

Lemma np_sort_sorted l : Sorted (fun a b => fle a b = true) (np_sort l).
Proof.
  induction l as [|x l IH]; cbn [np_sort fold_right]; [constructor|].
  now apply insert_sorted_sorted.
Qed.

Lemma middle_In {A} k m (l : list A) x :
  In x (firstn k (skipn m l)) -> In x l.
Proof.
  intros H. rewrite <- (firstn_skipn m l). apply in_or_app. right.
  rewrite <- (firstn_skipn k (skipn m l)). apply in_or_app. now left.
Qed.

Lemma middle_not_nil {A} k m (l : list A) :
  (0 < k)%nat -> (m < length l)%nat -> firstn k (skipn m l) <> [].
Proof.
  intros Hk Hm E. apply (f_equal (@length A)) in E.
  rewrite length_firstn, length_skipn in E. cbn [length] in E. lia.
Qed.

(** The median of a non-empty array without NaN is a number. *)
Lemma np_median_finite l : l <> [] -> Forall finite l -> finite (np_median l).
Proof.
  intros N H. unfold np_median.
  assert (E : existsb is_nan l = false).
  { destruct (existsb is_nan l) eqn:E; [|reflexivity].
    apply existsb_exists in E. destruct E as [x [Hx Hn]].
    rewrite Forall_forall in H. destruct (H x Hx) as [q ->]. discriminate. }
  rewrite E.
  assert (L : (0 < length l)%nat) by (destruct l; [congruence | cbn; lia]).
  assert (F : forall k m, Forall finite (firstn k (skipn m (np_sort l)))).
  { intros k m. apply Forall_forall. intros x Hx. apply middle_In in Hx.
    apply -> np_sort_In in Hx. rewrite Forall_forall in H. auto. }
  pose proof (Nat.div_lt (length l) 2 L ltac:(lia)) as D.
  destruct (Nat.even (length l)); (apply np_mean_finite; [|apply F]);
    apply middle_not_nil; rewrite ?np_sort_length; lia.
Qed.

Lemma fgt_lt q t : fgt (Fin q) (Fin t) = true <-> (t < q)%Q.
Proof.
  cbn [fgt]. rewrite negb_true_iff. split; intros H.
  - apply Qnot_le_lt. intros L. apply Qle_bool_iff in L. congruence.
  - destruct (Qle_bool q t) eqn:E; [|reflexivity].
    apply Qle_bool_iff in E. apply Qlt_not_le in H. contradiction.
Qed.

Lemma inject_succ n :
  (inject_Z (Z.of_nat (S n)) == inject_Z (Z.of_nat n) + 1)%Q.
Proof.
  rewrite Nat2Z.inj_succ. unfold Z.succ. now rewrite inject_Z_plus.
Qed.

(** Adding cells that all exceed [t] to [a] gives at least [a] plus their
    number times [t]. *)
Lemma fold_fadd_above t l :
  Forall (fun x => fgt x (Fin t) = true) l ->
  forall a, exists s,
    fold_left fadd l (Fin a) = Fin s
    /\ (a + inject_Z (Z.of_nat (length l)) * t <= s)%Q.
Proof.
  induction 1 as [|x l Hx Hl IH]; intros a.
  - exists a. split; [reflexivity|].
    change (inject_Z (Z.of_nat (length (@nil cell)))) with 0%Q. lra.
  - destruct x as [|q]; [discriminate|]. apply fgt_lt in Hx.
    cbn [fold_left fadd]. destruct (IH (Qred (a + q))) as [s [E B]].
    exists s. split; [exact E|].
    rewrite Qred_correct in B. cbn [length]. rewrite inject_succ. lra.
Qed.

(** The mean of cells that all exceed [t] exceeds [t]. *)
Lemma np_mean_above t l :
  l <> [] -> Forall (fun x => fgt x (Fin t) = true) l ->
  exists q, np_mean l = Fin q /\ (t < q)%Q.
Proof.
  intros N H. destruct l as [|x l]; [congruence|].
  inversion H as [|? ? Hx Hl]; subst.
  destruct x as [|q]; [discriminate|]. apply fgt_lt in Hx.
  unfold np_mean, np_sum. cbn [fold_left fadd].
  destruct (fold_fadd_above t l Hl (Qred (0 + q))) as [s [E B]].
  rewrite E. rewrite Qred_correct in B.
  unfold of_nat, fdiv. cbn [length].
  assert (P : (0 <= inject_Z (Z.of_nat (length l)))%Q).
  { change 0%Q with (inject_Z 0). rewrite <- Zle_Qle. lia. }
  assert (D : Qeq_bool (inject_Z (Z.of_nat (S (length l)))) 0 = false).
  { destruct (Qeq_bool _ 0) eqn:Z; [|reflexivity].
    apply Qeq_bool_eq in Z. rewrite inject_succ in Z. lra. }
  rewrite D. eexists. split; [reflexivity|].
  rewrite Qred_correct. apply Qlt_shift_div_l; rewrite inject_succ; lra.
Qed.

(** The median of cells that all exceed [t] exceeds [t]. *)
Lemma np_median_above t l :
  l <> [] -> Forall (fun x => fgt x (Fin t) = true) l ->
  exists q, np_median l = Fin q /\ (t < q)%Q.
Proof.
  intros N H. unfold np_median.
  assert (E : existsb is_nan l = false).
  { destruct (existsb is_nan l) eqn:E; [|reflexivity].
    apply existsb_exists in E. destruct E as [x [Hx Hn]].
    rewrite Forall_forall in H. specialize (H x Hx).
    destruct x; discriminate. }
  rewrite E.
  assert (L : (0 < length l)%nat) by (destruct l; [congruence | cbn; lia]).
  assert (F : forall k m, Forall (fun x => fgt x (Fin t) = true)
                            (firstn k (skipn m (np_sort l)))).
  { intros k m. apply Forall_forall. intros x Hx. apply middle_In in Hx.
    apply -> np_sort_In in Hx. rewrite Forall_forall in H. auto. }
  pose proof (Nat.div_lt (length l) 2 L ltac:(lia)) as D.
  destruct (Nat.even (length l)); (apply np_mean_above; [|apply F]);
    apply middle_not_nil; rewrite ?np_sort_length; lia.
Qed.

Lemma fgt_finite x y : fgt x y = true -> finite x.
Proof. destruct x as [|q]; [discriminate|]. now exists q. Qed.

Lemma over_500_In school_data x :
  In x (over_500 school_data)
  <-> In x (concat school_data) /\ fgt x (of_Z 500) = true.
Proof. unfold over_500. rewrite filter_In. reflexivity. Qed.

(** C2, as stated, fails on its first half: for a slice of zeros no cell
    exceeds 500 and [median_over_500] returns NaN instead of failing. *)
Lemma median_of_nothing_is_nan :
  get_school_data sample_obj 101 = Ok zero_slice
  /\ existsb (fun x => fgt x (of_Z 500)) (concat zero_slice) = false
  /\ median_over_500 zero_slice = Ok NaN.
Proof. repeat split. Qed.

(** C2, amended.  [median_over_500] never fails.  The cells it passes to
    [np.median] are exactly the cells strictly greater than 500 (a cell
    equal to 500 or NaN is left out).  When no cell exceeds 500 it returns
    NaN; when some cell does, it returns a number, the median of those
    cells, which lies above 500. *)
Theorem median_over_500_selects (school_data : list (list cell)) :
  median_over_500 school_data = Ok (np_median (over_500 school_data))
  /\
  (forall x, In x (over_500 school_data)
             <-> In x (concat school_data) /\ fgt x (of_Z 500) = true)
  /\
  ~ In (of_Z 500) (over_500 school_data)
  /\
  ~ In NaN (over_500 school_data)
  /\
  ((forall x, In x (concat school_data) -> fgt x (of_Z 500) = false) ->
   median_over_500 school_data = Ok NaN)
  /\
  ((exists x, In x (concat school_data) /\ fgt x (of_Z 500) = true) ->
   exists q, median_over_500 school_data = Ok (Fin q) /\ (500 < q)%Q).
Proof.
  split; [reflexivity|]. split; [apply over_500_In|].
  split; [rewrite over_500_In; intros [_ H]; discriminate|].
  split; [rewrite over_500_In; intros [_ H]; discriminate|].
  split.
  - intros H. unfold median_over_500.
    assert (E : over_500 school_data = []).
    { destruct (over_500 school_data) as [|x l] eqn:E; [reflexivity|].
      assert (Hx : In x (over_500 school_data)) by (rewrite E; now left).
      apply -> over_500_In in Hx. destruct Hx as [Hx G].
      rewrite (H x Hx) in G. discriminate. }
    rewrite E. reflexivity.
  - intros [x Hx]. apply <- over_500_In in Hx. unfold median_over_500.
    destruct (np_median_above 500 (over_500 school_data)) as [q [-> Hq]].
    + intros E. rewrite E in Hx. exact Hx.
    + apply Forall_forall. intros y Hy. apply -> over_500_In in Hy.
      apply Hy.
    + eauto.
Qed.

Lemma median_over_500_selects_witness :
  median_over_500 zero_slice = Ok NaN
  /\ exists q, median_over_500 mixed_slice = Ok (Fin q) /\ (500 < q)%Q.
Proof.
  split.
  - destruct (median_over_500_selects zero_slice) as (_ & _ & _ & _ & H & _).
    apply H. intros x Hx.
    assert (A : forallb (fun x => negb (fgt x (of_Z 500))) (concat zero_slice)
                = true) by reflexivity.
    rewrite forallb_forall in A. apply negb_true_iff. auto.
  - destruct (median_over_500_selects mixed_slice) as (_ & _ & _ & _ & _ & H).
    apply H. exists (of_Z 700). split; [|reflexivity].
    right. right. now left.
Defined.

(** C9.  The sum of the per-year totals is the ten-year total, and for a
    slice of ten years the mean total is the ten-year total divided by
    10. *)
Theorem ten_year_total_and_mean (school_data : list (list cell)) :
  np_sum (school_enrol_tot_per_year school_data)
  = school_tot_ten_year school_data
  /\
  (length school_data = 10%nat ->
   length (school_enrol_tot_per_year school_data) = 10%nat
   /\ mean_tot_enrol school_data
      = fdiv (school_tot_ten_year school_data) (of_Z 10)).
Proof.
  split; [reflexivity|]. intros L.
  unfold mean_tot_enrol, np_mean, school_tot_ten_year,
    school_enrol_tot_per_year.
  rewrite length_map, L. split; reflexivity.
Qed.

Lemma ten_year_total_and_mean_witness :
  length (school_enrol_tot_per_year sample_slice) = 10%nat
  /\ mean_tot_enrol sample_slice
     = fdiv (school_tot_ten_year sample_slice) (of_Z 10).
Proof.
  destruct (ten_year_total_and_mean sample_slice) as [_ H].
  apply H. reflexivity.
Defined.

(** [np.nansum] adds up the cells that are not NaN, and only those. *)
Lemma fold_fadd_skips_nan l : forall a,
  Qred a = a ->
  fold_left fadd (map (fun x => if is_nan x then Fin 0 else x) l) (Fin a)
  = fold_left fadd (filter (fun x => negb (is_nan x)) l) (Fin a).
Proof.
  induction l as [|x l IH]; intros a Ha; [reflexivity|].
  destruct x as [|q]; cbn [map filter is_nan negb fold_left fadd].
  - rewrite <- (IH a Ha). do 2 f_equal. rewrite <- Ha at 2.
    apply Qred_complete. lra.
  - apply IH. apply Qred_complete, Qred_correct.
Qed.

Lemma np_nansum_skips_nan l :
  np_nansum l = np_sum (filter (fun x => negb (is_nan x)) l).
Proof. unfold np_nansum, np_sum. now apply fold_fadd_skips_nan. Qed.

Lemma np_nansum_finite l : finite (np_nansum l).
Proof.
  rewrite np_nansum_skips_nan. apply fold_fadd_finite.
  apply Forall_forall. intros x Hx. apply filter_In in Hx.
  destruct x as [|q]; [destruct Hx; discriminate | now exists q].
Qed.

(** C6 at a slice with one missing cell: the per-school reductions built
    on [np.mean], [np.max], [np.min] and [np.sum] return NaN, while
    [median_over_500] and the nan-aware [general_stats] leave the missing
    cell out. *)
Theorem per_school_statistics_propagate_nan :
  init nan_rows sample_table = Ok nan_obj
  /\ get_school_data nan_obj 101 = Ok nan_slice
  /\ school_enrol_grade_means nan_slice = (NaN, of_Z 600, of_Z 600)
  /\ school_enrol_max_min nan_slice = Ok (NaN, NaN)
  /\ school_enrol_tot_per_year nan_slice = NaN :: repeat (of_Z 1800) 9
  /\ school_tot_ten_year nan_slice = NaN
  /\ mean_tot_enrol nan_slice = NaN
  /\ median_over_500 nan_slice = Ok (of_Z 600)
  /\ general_stats nan_obj
     = Ok {| mean_2013 := of_Z 600; mean_2022 := of_Z 600;
             total_grad_2022 := of_Z 12000;
             max_enrol_grade := of_Z 600; min_enrol_grade := of_Z 600 |}.
Proof. repeat split; vm_compute; reflexivity. Qed.

(* ------------------------------------------------------------------ *)
(** ** The worked examples *)

Example zero_tensor_max_min :
  school_enrol_max_min zero_slice = Ok (of_Z 0, of_Z 0).
Proof. reflexivity. Qed.

Example sample_table_resolves :
  look_up_school sample_obj "202" = Ok ("Beta High", 202)
  /\ position_of_code sample_obj 101 = Ok 0%nat
  /\ position_of_code sample_obj 202 = Ok 1%nat.
Proof. repeat split. Qed.

Example sample_slice_statistics :
  school_enrol_grade_means sample_slice = (of_Z 100, of_Z 200, of_Z 200)
  /\ school_enrol_tot_per_year sample_slice = repeat (of_Z 500) 10
  /\ school_tot_ten_year sample_slice = of_Z 5000
  /\ mean_tot_enrol sample_slice = of_Z 500.
Proof. repeat split. Qed.

Example median_of_even_and_odd :
  np_median [of_Z 501; of_Z 700; of_Z 600; of_Z 502] = of_Z 551
  /\ np_median [of_Z 700; of_Z 501; of_Z 600] = of_Z 600
  /\ median_over_500 mixed_slice = Ok (Fin (1201 # 2)).
Proof. repeat split. Qed.

Example int_literals :
  py_int " +2_02 " = Some 202
  /\ py_int "-007" = Some (-7)
  /\ py_int "2__02" = None
  /\ py_int "_202" = None
  /\ py_int "202_" = None
  /\ py_int "- 202" = None
  /\ py_int "20 2" = None
  /\ py_int "" = None
  /\ py_str (-202) = "-202"
  /\ py_str 0 = "0".
Proof. repeat split. Qed.

Example unknown_code_has_no_slice :
  get_school_data sample_obj 303 = Raise (ValueError (Not_in_list 303)).
Proof. reflexivity. Qed.

(* ================================================================== *)
(** * Further properties of the program *)

(* ------------------------------------------------------------------ *)
(** ** The two dicts *)

Module DictKeys.
Section DictKeys.
Context {K V : Type}.
Variable eqb : K -> K -> bool.
Hypothesis eqb_eq : forall a b, eqb a b = true <-> a = b.

(** Assigning to a key that is there leaves the keys as they are. *)
Lemma keys_set_present k v (d : Dict.t (K := K) (V := V)) :
  In k (Dict.keys d) -> Dict.keys (Dict.set eqb k v d) = Dict.keys d.
Proof.
  induction d as [|[k' v'] d IH]; cbn [Dict.keys Dict.set map fst In];
    [tauto|].
  intros H. destruct (eqb k k') eqn:E; cbn [map fst]; [reflexivity|].
  f_equal. apply IH. destruct H as [H|H]; [|exact H].
  subst k'. rewrite (DictFacts.eqb_refl eqb eqb_eq) in E. discriminate.
Qed.

Lemma keys_set_NoDup k v (d : Dict.t (K := K) (V := V)) :
  NoDup (Dict.keys d) -> NoDup (Dict.keys (Dict.set eqb k v d)).
Proof.
  intros H. destruct (Dict.get eqb k d) as [v0|] eqn:G.
  - rewrite keys_set_present; [exact H|].
    apply (DictFacts.get_Some eqb eqb_eq). eauto.
  - apply (DictFacts.get_None eqb eqb_eq) in G.
    rewrite (DictFacts.set_fresh eqb eqb_eq) by exact G.
    unfold Dict.keys in *. rewrite map_app. cbn [map fst].
    apply NoDup_app; [exact H | repeat constructor; intros [] |].
    intros x Hx [<-|[]]. contradiction.
Qed.

Lemma keys_assign_all_NoDup {R} (key : R -> K) (val : R -> V) rows :
  forall d, NoDup (Dict.keys d) ->
            NoDup (Dict.keys (Dict.assign_all eqb key val rows d)).
Proof.
  induction rows as [|r rows IH]; intros d H; [exact H|].
  change (Dict.assign_all eqb key val (r :: rows) d)
    with (Dict.assign_all eqb key val rows (Dict.set eqb (key r) (val r) d)).
  apply IH. now apply keys_set_NoDup.
Qed.

Lemma keys_assign_all_In {R} (key : R -> K) (val : R -> V) rows k :
  In k (Dict.keys (Dict.assign_all eqb key val rows []))
  <-> In k (map key rows).
Proof.
  rewrite (DictFacts.get_Some eqb eqb_eq), in_map_iff. split.
  - intros [v H]. rewrite (DictFacts.get_assign_all eqb eqb_eq) in H.
    apply (DictFacts.last_assigned_In eqb eqb_eq) in H.
    destruct H as [H|[r [H1 [H2 _]]]]; [discriminate | eauto].
  - intros [r [<- H]]. rewrite (DictFacts.get_assign_all eqb eqb_eq).
    now apply (DictFacts.last_assigned_key eqb eqb_eq).
Qed.
End DictKeys.
End DictKeys.

Lemma drop_duplicates_map_In {B} (f : row -> B) rows x :
  In x (map f (drop_duplicates rows)) <-> In x (map f rows).
Proof.
  rewrite !in_map_iff. split; intros [r [E H]]; exists r; split; auto.
  - now apply -> drop_duplicates_In.
  - now apply <- drop_duplicates_In.
Qed.

Lemma names_keys_In school_df n :
  In n (Dict.keys (fst (set_schools_and_ids school_df)))
  <-> In n (map fst school_df).
Proof.
  unfold set_schools_and_ids. cbn [fst].
  rewrite (DictKeys.keys_assign_all_In _ String.eqb_eq).
  apply drop_duplicates_map_In.
Qed.

Lemma ids_keys_In school_df c :
  In c (Dict.keys (snd (set_schools_and_ids school_df)))
  <-> In c (map snd school_df).
Proof.
  unfold set_schools_and_ids. cbn [snd].
  rewrite (DictKeys.keys_assign_all_In _ Z.eqb_eq).
  apply drop_duplicates_map_In.
Qed.

(** X1.  Both dicts have pairwise different keys; the keys of the first
    are the names that occur in the table and the keys of the second are
    the codes that occur in it. *)
Theorem set_schools_and_ids_keys (school_df : list row) :
  NoDup (Dict.keys (fst (set_schools_and_ids school_df)))
  /\ NoDup (Dict.keys (snd (set_schools_and_ids school_df)))
  /\ (forall n, In n (Dict.keys (fst (set_schools_and_ids school_df)))
                <-> In n (map fst school_df))
  /\ (forall c, In c (Dict.keys (snd (set_schools_and_ids school_df)))
                <-> In c (map snd school_df)).
Proof.
  unfold set_schools_and_ids. cbn [fst snd].
  split; [apply DictKeys.keys_assign_all_NoDup; [apply String.eqb_eq | constructor]|].
  split; [apply DictKeys.keys_assign_all_NoDup; [apply Z.eqb_eq | constructor]|].
  split; intros x.
  - apply names_keys_In.
  - apply ids_keys_In.
Qed.

(* ------------------------------------------------------------------ *)
(** ** Lookup against the table *)

Lemma init_dicts rows school_df self :
  init rows school_df = Ok self ->
  school_names_ids self = fst (set_schools_and_ids school_df)
  /\ school_ids_names self = snd (set_schools_and_ids school_df).
Proof. intros H. apply init_inv in H. tauto. Qed.

Lemma look_up_row rows school_df self s n c :
  init rows school_df = Ok self ->
  look_up_school self s = Ok (n, c) -> In (n, c) school_df.
Proof.
  intros Hi. apply init_dicts in Hi. destruct Hi as [Hn Hd].
  unfold look_up_school. rewrite Hn, Hd.
  destruct (Dict.get String.eqb s (fst (set_schools_and_ids school_df)))
    as [c0|] eqn:E.
  - intros H. injection H as <- <-. now apply names_get_In.
  - destruct (py_int s) as [z|]; [|discriminate].
    destruct (Dict.get Z.eqb z (snd (set_schools_and_ids school_df)))
      as [n0|] eqn:G; [|discriminate].
    intros H. injection H as <- <-. now apply ids_get_In.
Qed.

(** X2.  A pair returned by [look_up_school] is a row of the school table,
    and the string given is its name or an integer literal of its code. *)
Theorem look_up_school_sound rows school_df self s n c :
  init rows school_df = Ok self ->
  look_up_school self s = Ok (n, c) ->
  In (n, c) school_df /\ (s = n \/ py_int s = Some c).
Proof.
  intros Hi Hl. split; [eapply look_up_row; eassumption|].
  unfold look_up_school in Hl.
  destruct (Dict.get String.eqb s (school_names_ids self)) as [c0|].
  - injection Hl as <- <-. now left.
  - destruct (py_int s) as [z|]; [|discriminate].
    destruct (Dict.get Z.eqb z (school_ids_names self)); [|discriminate].
    injection Hl as <- <-. now right.
Qed.

Lemma look_up_school_sound_witness :
  In ("Beta High", 202) sample_table
  /\ ("202" = "Beta High" \/ py_int "202" = Some 202).
Proof.
  apply (look_up_school_sound zero_rows sample_table sample_obj "202").
  - exact init_sample.
  - reflexivity.
Defined.

(** X3.  Every name of the table resolves, to a pair that is a row of the
    table, which is the row itself when no name carries two codes; and the
    decimal string of every code of the table resolves to a row with that
    code unless the string is a school name. *)
Theorem look_up_school_complete rows school_df self n c :
  init rows school_df = Ok self ->
  In (n, c) school_df ->
  (exists c', look_up_school self n = Ok (n, c') /\ In (n, c') school_df
              /\ (names_functional school_df -> c' = c))
  /\
  (~ In (py_str c) (map fst school_df) ->
   exists n', look_up_school self (py_str c) = Ok (n', c)
              /\ In (n', c) school_df).
Proof.
  intros Hi Hr. apply init_dicts in Hi. destruct Hi as [Hn Hd]. split.
  - pose proof Hr as Hr'. apply <- drop_duplicates_In in Hr'.
    destruct (DictFacts.last_assigned_key String.eqb String.eqb_eq
                fst snd (n, c) (drop_duplicates school_df) None Hr')
      as [c' Hc'].
    cbn [fst] in Hc'. rewrite <- names_get in Hc'.
    exists c'. split; [apply look_up_by_name; now rewrite Hn|].
    pose proof (names_get_In _ _ _ Hc') as Hin. split; [exact Hin|].
    intros F. eapply F; eassumption.
  - intros Hs. pose proof Hr as Hr'. apply <- drop_duplicates_In in Hr'.
    destruct (DictFacts.last_assigned_key Z.eqb Z.eqb_eq
                snd fst (n, c) (drop_duplicates school_df) None Hr')
      as [n' Hn'].
    cbn [snd] in Hn'. rewrite <- ids_get in Hn'.
    exists n'. split; [|now apply ids_get_In].
    apply look_up_by_code; [| apply py_int_py_str | now rewrite Hd].
    rewrite Hn. apply (DictFacts.get_None _ String.eqb_eq).
    intros H. apply Hs. now apply names_keys_In.
Qed.

Lemma look_up_school_complete_witness :
  look_up_school sample_obj "Alpha High" = Ok ("Alpha High", 101)
  /\ exists n', look_up_school sample_obj (py_str 101) = Ok (n', 101)
                /\ In (n', 101) sample_table.
Proof.
  destruct (look_up_school_complete zero_rows sample_table sample_obj
              "Alpha High" 101 init_sample) as [[c' (H & _ & E)] H2];
    [now left|].
  split.
  - rewrite <- (E (proj1 sample_table_functional)). exact H.
  - apply H2. intros [H0|[H0|[H0|[]]]]; discriminate.
Defined.

(* ------------------------------------------------------------------ *)
(** ** One school's slice *)

Lemma nth_chunks {A} n k : forall (l : list A) i,
  (i < n)%nat -> nth i (chunks n k l) [] = firstn k (skipn (i * k) l).
Proof.
  induction n as [|n IH]; intros l i Hi; [lia|].
  cbn [chunks]. destruct i as [|i]; [reflexivity|].
  cbn [nth]. rewrite IH by lia. rewrite skipn_skipn. f_equal. f_equal.
  cbn [Nat.mul]. lia.
Qed.

Lemma init_data rows school_df self :
  init rows school_df = Ok self ->
  length (concat rows) = 600%nat
  /\ data self = map (chunks 20 3) (chunks 10 60 (concat rows)).
Proof.
  intros H. apply init_inv in H. destruct H as [[a [Ha Hd]] _].
  unfold np_array in Ha. destruct (rectangular rows); [|discriminate].
  apply (f_equal (fun r => match r with Ok x => x | Raise _ => a end)) in Ha.
  cbv beta iota in Ha. subst a.
  unfold reshape_10_20_3 in Hd.
  destruct (Nat.eqb (length (concat rows)) 600) eqn:E; [|discriminate].
  apply Nat.eqb_eq in E. split; [exact E|].
  apply (f_equal (fun r => match r with Ok x => x | Raise _ => data self end))
    in Hd.
  cbv beta iota in Hd. now rewrite <- Hd.
Qed.

Lemma school_axis rows school_df self :
  init rows school_df = Ok self ->
  length (data self) = 10%nat /\ length (nth 0 (data self) []) = 20%nat.
Proof.
  intros H. apply init_data in H. destruct H as [_ ->].
  rewrite length_map, chunks_length. split; [reflexivity|].
  change (nth 0 (map (chunks 20 3) (chunks 10 60 (concat rows))) [])
    with (chunks 20 3 (firstn 60 (concat rows))).
  apply chunks_length.
Qed.

Lemma school_slice_year rows school_df self i y :
  init rows school_df = Ok self -> (i < 20)%nat -> (y < 10)%nat ->
  nth y (map (fun year => nth i year []) (data self)) []
  = firstn 3 (skipn (i * 3) (firstn 60 (skipn (y * 60) (concat rows)))).
Proof.
  intros H Hi Hy. apply init_data in H. destruct H as [_ ->].
  rewrite map_map.
  rewrite (nth_indep _ []
             ((fun x => nth i (chunks 20 3 x) []) []))
    by (rewrite length_map, chunks_length; exact Hy).
  rewrite (map_nth (fun x => nth i (chunks 20 3 x) [])).
  rewrite !nth_chunks by assumption. reflexivity.
Qed.

Lemma list_index_In (l : list Z) c :
  In c l -> exists i, list_index c l = Some i /\ (i < length l)%nat.
Proof.
  induction l as [|y l IH]; cbn [In list_index length]; [tauto|].
  intros H. destruct (Z.eqb c y) eqn:E.
  - exists 0%nat. split; [reflexivity | lia].
  - apply Z.eqb_neq in E. destruct H as [H|H]; [congruence|].
    destruct (IH H) as [i [-> Hi]]. exists (S i). split; [reflexivity | lia].
Qed.

Lemma list_index_Some (l : list Z) c : forall i,
  list_index c l = Some i -> nth_error l i = Some c.
Proof.
  induction l as [|y l IH]; cbn [list_index]; intros i; [discriminate|].
  destruct (Z.eqb c y) eqn:E.
  - intros H. injection H as <-. apply Z.eqb_eq in E. now subst.
  - destruct (list_index c l) as [j|]; [|discriminate].
    intros H. injection H as <-. now apply IH.
Qed.

Lemma school_slice_ok rows school_df self i :
  init rows school_df = Ok self -> (i < 20)%nat ->
  school_slice (data self) i = Ok (map (fun year => nth i year []) (data self))
  /\ length (data self) = 10%nat.
Proof.
  intros H Hi. destruct (school_axis _ _ _ H) as [L10 L20].
  unfold school_slice. rewrite L20. apply Nat.ltb_lt in Hi. now rewrite Hi.
Qed.

(** X4.  [get_school_data] on a constructed object: a code at a position
    below 20 among the values of the name dict gives ten years of three
    grades; a code at position 20 or beyond raises [IndexError]; a code
    that is no value of the name dict raises the [ValueError] of
    [list.index]. *)
Theorem get_school_data_outcomes rows school_df self c :
  init rows school_df = Ok self ->
  (forall i, position_of_code self c = Ok i -> (i < 20)%nat ->
     exists sd, get_school_data self c = Ok sd
                /\ length sd = 10%nat
                /\ Forall (fun year => length year = 3%nat) sd)
  /\
  (forall i, position_of_code self c = Ok i -> (20 <= i)%nat ->
     get_school_data self c = Raise (IndexError (Out_of_bounds i)))
  /\
  (~ In c (Dict.values (school_names_ids self)) ->
   get_school_data self c = Raise (ValueError (Not_in_list c))).
Proof.
  intros H. pose proof (school_axis _ _ _ H) as [L10 L20].
  split; [|split].
  - intros i Hp Hi. unfold get_school_data, bind, school_slice.
    rewrite Hp, L20. apply Nat.ltb_lt in Hi. rewrite Hi.
    apply Nat.ltb_lt in Hi.
    eexists. split; [reflexivity|]. split; [now rewrite length_map|].
    apply Forall_forall. intros year Hy.
    destruct (In_nth _ _ [] Hy) as [y [Hlt <-]].
    rewrite length_map, L10 in Hlt.
    rewrite (school_slice_year rows school_df) by assumption.
    apply init_data in H. destruct H as [L _].
    rewrite !length_firstn, !length_skipn, length_firstn, length_skipn, L.
    lia.
  - intros i Hp Hi. unfold get_school_data, bind, school_slice.
    rewrite Hp, L20. apply Nat.ltb_ge in Hi. now rewrite Hi.
  - intros Hn. unfold get_school_data, bind, position_of_code.
    now rewrite list_index_None.
Qed.

Lemma get_school_data_outcomes_witness :
  (exists sd, get_school_data sample_obj 202 = Ok sd
              /\ length sd = 10%nat
              /\ Forall (fun year => length year = 3%nat) sd)
  /\ get_school_data sample_obj 303 = Raise (ValueError (Not_in_list 303)).
Proof.
  destruct (get_school_data_outcomes zero_rows sample_table sample_obj 202
              init_sample) as [H _].
  destruct (get_school_data_outcomes zero_rows sample_table sample_obj 303
              init_sample) as (_ & _ & H3).
  split.
  - apply (H 1%nat); [reflexivity | lia].
  - apply H3. intros [E|[E|[]]]; discriminate.
Defined.

(** X5.  Layout of a slice: for the school at position [i], the cell of
    year [y] and grade [g] is element [60*y + 3*i + g] of the input rows
    laid end to end. *)
Theorem get_school_data_layout rows school_df self c i sd y g :
  init rows school_df = Ok self ->
  position_of_code self c = Ok i ->
  get_school_data self c = Ok sd ->
  (y < 10)%nat -> (g < 3)%nat ->
  (i < 20)%nat
  /\ nth g (nth y sd []) NaN = nth (60 * y + 3 * i + g) (concat rows) NaN.
Proof.
  intros H Hp Hg Hy Hgr.
  pose proof (school_axis _ _ _ H) as [L10 L20].
  unfold get_school_data, bind, school_slice in Hg. rewrite Hp, L20 in Hg.
  destruct (i <? 20)%nat eqn:Hi; [|discriminate]. apply Nat.ltb_lt in Hi.
  apply (f_equal (fun r => match r with Ok x => x | Raise _ => sd end)) in Hg.
  cbv beta iota in Hg. subst sd. split; [exact Hi|].
  rewrite (school_slice_year rows school_df) by assumption.
  rewrite nth_firstn. apply Nat.ltb_lt in Hgr. rewrite Hgr.
  apply Nat.ltb_lt in Hgr.
  rewrite nth_skipn, nth_firstn.
  assert (B : (i * 3 + g <? 60)%nat = true) by (apply Nat.ltb_lt; lia).
  rewrite B, nth_skipn. f_equal. lia.
Qed.

Lemma init_ramp : init ramp_rows sample_table = Ok ramp_obj.
Proof. vm_compute. reflexivity. Qed.

Lemma get_school_data_layout_witness :
  (1 < 20)%nat
  /\ nth 1 (nth 2 (map (fun year => nth 1 year []) (data ramp_obj)) []) NaN
     = nth (60 * 2 + 3 * 1 + 1) (concat ramp_rows) NaN.
Proof.
  apply (get_school_data_layout ramp_rows sample_table ramp_obj 202).
  - exact init_ramp.
  - reflexivity.
  - reflexivity.
  - lia.
  - lia.
Defined.

(** X6.  From lookup to slice.  With at most twenty different names in the
    table, a code returned by [look_up_school] has a slice whenever the
    string was matched as a name, or no name of the table carries two
    codes. *)
Theorem looked_up_school_has_slice rows school_df self s n c :
  init rows school_df = Ok self ->
  (length (Dict.keys (school_names_ids self)) <= 20)%nat ->
  look_up_school self s = Ok (n, c) ->
  In s (Dict.keys (school_names_ids self)) \/ names_functional school_df ->
  exists sd, get_school_data self c = Ok sd /\ length sd = 10%nat.
Proof.
  intros Hi Hlen Hl Hor.
  assert (V : In c (Dict.values (school_names_ids self))).
  { destruct Hor as [Hs|Fn].
    - apply (DictFacts.get_Some _ String.eqb_eq) in Hs. destruct Hs as [c0 G].
      rewrite (look_up_by_name _ _ _ G) in Hl. injection Hl as <- <-.
      apply (DictFacts.get_In _ String.eqb_eq) in G.
      apply (in_map snd) in G. exact G.
    - pose proof (look_up_row _ _ _ _ _ _ Hi Hl) as Hr.
      destruct (init_dicts _ _ _ Hi) as [-> _].
      rewrite names_dict_is_table by exact Fn.
      apply <- drop_duplicates_In in Hr. apply (in_map snd) in Hr. exact Hr. }
  apply list_index_In in V. destruct V as [i [Hx Hlt]].
  assert (Hi20 : (i < 20)%nat).
  { unfold Dict.values, Dict.keys in *. rewrite length_map in *. lia. }
  destruct (school_slice_ok _ _ _ i Hi Hi20) as [E L].
  unfold get_school_data, bind, position_of_code. rewrite Hx, E.
  eexists. split; [reflexivity|]. now rewrite length_map.
Qed.

Lemma looked_up_school_has_slice_witness :
  exists sd, get_school_data sample_obj 202 = Ok sd /\ length sd = 10%nat.
Proof.
  apply (looked_up_school_has_slice zero_rows sample_table sample_obj
           "202" "Beta High" 202).
  - exact init_sample.
  - cbn. lia.
  - reflexivity.
  - right. apply sample_table_functional.
Defined.

(* ------------------------------------------------------------------ *)
(** ** Sums *)

Lemma exact_sum_None l : exact_sum l = None <-> In NaN l.
Proof.
  induction l as [|[|q] l IH]; cbn [exact_sum In].
  - split; [discriminate | tauto].
  - tauto.
  - destruct (exact_sum l); cbn [option_map].
    + split; [discriminate|]. intros [H|H]; [discriminate|].
      apply IH in H. discriminate.
    + split; [|reflexivity]. intros _. right. now apply IH.
Qed.

(** From an accumulator in lowest terms, the summing loop reaches the
    exact sum in lowest terms, or NaN. *)
Lemma fold_fadd_exact l : forall a,
  Qred a = a ->
  fold_left fadd l (Fin a)
  = match exact_sum l with
    | Some q => Fin (Qred (a + q))
    | None => NaN
    end.
Proof.
  induction l as [|[|b] l IH]; intros a Ha; cbn [fold_left exact_sum fadd].
  - f_equal. rewrite <- Ha at 1. apply Qred_complete. lra.
  - apply fold_fadd_NaN.
  - rewrite IH by apply Qred_complete, Qred_correct.
    destruct (exact_sum l) as [q|]; cbn [option_map]; [|reflexivity].
    f_equal. apply Qred_complete. rewrite Qred_correct. lra.
Qed.

Lemma np_sum_exact l :
  np_sum l = match exact_sum l with
             | Some q => Fin (Qred q)
             | None => NaN
             end.
Proof.
  unfold np_sum. rewrite fold_fadd_exact by reflexivity.
  destruct (exact_sum l) as [q|]; [|reflexivity].
  f_equal. apply Qred_complete. lra.
Qed.

Lemma exact_sum_app l1 l2 :
  match exact_sum l1, exact_sum l2 with
  | Some a, Some b =>
      exists c, exact_sum (l1 ++ l2) = Some c /\ (c == a + b)%Q
  | _, _ => exact_sum (l1 ++ l2) = None
  end.
Proof.
  induction l1 as [|[|q] l1 IH]; cbn [app exact_sum].
  - destruct (exact_sum l2) as [b|]; [|reflexivity].
    exists b. split; [reflexivity | lra].
  - reflexivity.
  - destruct (exact_sum l1) as [a|], (exact_sum l2) as [b|];
      cbn [option_map]; try (rewrite IH; reflexivity).
    destruct IH as [c [-> Hc]]. cbn [option_map].
    eexists. split; [reflexivity|]. rewrite Hc. lra.
Qed.

Lemma fold_year_totals_exact s : forall a,
  Qred a = a ->
  fold_left fadd (map np_sum s) (Fin a)
  = match exact_sum (concat s) with
    | Some q => Fin (Qred (a + q))
    | None => NaN
    end.
Proof.
  induction s as [|r s IH]; intros a Ha; cbn [map fold_left concat].
  - cbn [exact_sum]. f_equal. rewrite <- Ha at 1. apply Qred_complete. lra.
  - rewrite np_sum_exact. pose proof (exact_sum_app r (concat s)) as A.
    destruct (exact_sum r) as [qr|]; cbn [fadd].
    + rewrite IH by apply Qred_complete, Qred_correct.
      destruct (exact_sum (concat s)) as [q|].
      * destruct A as [c [-> Hc]]. f_equal. apply Qred_complete.
        rewrite !Qred_correct, Hc. lra.
      * now rewrite A.
    + rewrite A. apply fold_fadd_NaN.
Qed.

(** X7.  The ten-year total is the sum of all cells of the slice, in any
    grouping: it equals [np.sum] of the flattened slice, is NaN exactly
    when some cell is NaN and is the exact sum otherwise; the mean total is
    that sum over the number of years. *)
Theorem school_tot_ten_year_all_cells (school_data : list (list cell)) :
  school_tot_ten_year school_data = np_sum (concat school_data)
  /\ (school_tot_ten_year school_data = NaN <-> In NaN (concat school_data))
  /\ (forall q, exact_sum (concat school_data) = Some q ->
                school_tot_ten_year school_data = Fin (Qred q))
  /\ mean_tot_enrol school_data
     = fdiv (np_sum (concat school_data)) (of_nat (length school_data)).
Proof.
  assert (E : school_tot_ten_year school_data = np_sum (concat school_data)).
  { unfold school_tot_ten_year, school_enrol_tot_per_year, np_sum at 1.
    rewrite fold_year_totals_exact by reflexivity. rewrite np_sum_exact.
    destruct (exact_sum (concat school_data)) as [q|]; [|reflexivity].
    f_equal. apply Qred_complete. lra. }
  split; [exact E|]. split; [|split].
  - rewrite E, np_sum_exact, <- exact_sum_None.
    destruct (exact_sum (concat school_data)); split; congruence.
  - intros q Hq. now rewrite E, np_sum_exact, Hq.
  - unfold mean_tot_enrol, np_mean.
    change (np_sum (school_enrol_tot_per_year school_data))
      with (school_tot_ten_year school_data).
    rewrite E. unfold school_enrol_tot_per_year. now rewrite length_map.
Qed.

(** X8.  The per-year totals: one per year, the total of a year being NaN
    exactly when a cell of that year is NaN. *)
Theorem school_enrol_tot_per_year_nan (school_data : list (list cell)) :
  length (school_enrol_tot_per_year school_data) = length school_data
  /\
  (forall y, (y < length school_data)%nat ->
     (nth y (school_enrol_tot_per_year school_data) NaN = NaN
      <-> In NaN (nth y school_data []))).
Proof.
  unfold school_enrol_tot_per_year. split; [apply length_map|].
  intros y Hy.
  rewrite (nth_indep _ NaN (np_sum [])) by (now rewrite length_map).
  rewrite (map_nth np_sum), np_sum_exact, <- exact_sum_None.
  destruct (exact_sum (nth y school_data [])); split; congruence.
Qed.

Lemma school_enrol_tot_per_year_nan_witness :
  nth 0 (school_enrol_tot_per_year nan_slice) NaN = NaN
  <-> In NaN (nth 0 nan_slice []).
Proof.
  destruct (school_enrol_tot_per_year_nan nan_slice) as [_ H].
  apply H. cbn. lia.
Defined.

Lemma school_tot_ten_year_all_cells_witness :
  school_tot_ten_year sample_slice = Fin (Qred 5000).
Proof.
  destruct (school_tot_ten_year_all_cells sample_slice) as (_ & _ & H & _).
  apply H. vm_compute. reflexivity.
Defined.

(* ------------------------------------------------------------------ *)
(** ** Highest and lowest enrollment *)

Lemma Qle_bool_false a b : Qle_bool a b = false -> (b <= a)%Q.
Proof.
  intros H. apply Qlt_le_weak, Qnot_le_lt. intros L.
  apply Qle_bool_iff in L. congruence.
Qed.

Lemma fold_fmax_NaN l : fold_left fmax l NaN = NaN.
Proof. induction l as [|x l IH]; cbn [fold_left fmax]; auto. Qed.

Lemma fold_fmin_NaN l : fold_left fmin l NaN = NaN.
Proof. induction l as [|x l IH]; cbn [fold_left fmin]; auto. Qed.

Lemma fold_fmax_In_NaN l : forall a, In NaN l -> fold_left fmax l a = NaN.
Proof.
  induction l as [|x l IH]; intros a; cbn [In fold_left]; [tauto|].
  intros [->|H]; [|auto]. destruct a; cbn [fmax]; apply fold_fmax_NaN.
Qed.

Lemma fold_fmin_In_NaN l : forall a, In NaN l -> fold_left fmin l a = NaN.
Proof.
  induction l as [|x l IH]; intros a; cbn [In fold_left]; [tauto|].
  intros [->|H]; [|auto]. destruct a; cbn [fmin]; apply fold_fmin_NaN.
Qed.

(** The maximum loop over numbers ends at one of them, above all of them. *)
Lemma fold_fmax_finite l : forall a,
  Forall finite l ->
  exists m, fold_left fmax l (Fin a) = Fin m
            /\ (Fin m = Fin a \/ In (Fin m) l)
            /\ (a <= m)%Q
            /\ forall q, In (Fin q) l -> (q <= m)%Q.
Proof.
  induction l as [|x l IH]; intros a H; cbn [fold_left].
  - exists a. repeat split; [now left | apply Qle_refl | intros q []].
  - inversion H as [|? ? [b ->] Hl]; subst. cbn [fmax].
    destruct (Qle_bool a b) eqn:E.
    + apply Qle_bool_iff in E.
      destruct (IH b Hl) as (m & -> & Hin & Hb & Hall).
      exists m. repeat split.
      * right. destruct Hin as [->|Hin]; [now left | now right].
      * eapply Qle_trans; eassumption.
      * intros q [Hq|Hq]; [injection Hq as <-; exact Hb | auto].
    + apply Qle_bool_false in E.
      destruct (IH a Hl) as (m & -> & Hin & Ha & Hall).
      exists m. repeat split.
      * destruct Hin as [->|Hin]; [now left | right; now right].
      * exact Ha.
      * intros q [Hq|Hq]; [injection Hq as <-|auto].
        eapply Qle_trans; eassumption.
Qed.

Lemma fold_fmin_finite l : forall a,
  Forall finite l ->
  exists m, fold_left fmin l (Fin a) = Fin m
            /\ (Fin m = Fin a \/ In (Fin m) l)
            /\ (m <= a)%Q
            /\ forall q, In (Fin q) l -> (m <= q)%Q.
Proof.
  induction l as [|x l IH]; intros a H; cbn [fold_left].
  - exists a. repeat split; [now left | apply Qle_refl | intros q []].
  - inversion H as [|? ? [b ->] Hl]; subst. cbn [fmin].
    destruct (Qle_bool a b) eqn:E.
    + apply Qle_bool_iff in E.
      destruct (IH a Hl) as (m & -> & Hin & Ha & Hall).
      exists m. repeat split.
      * destruct Hin as [->|Hin]; [now left | right; now right].
      * exact Ha.
      * intros q [Hq|Hq]; [injection Hq as <-|auto].
        eapply Qle_trans; eassumption.
    + apply Qle_bool_false in E.
      destruct (IH b Hl) as (m & -> & Hin & Hb & Hall).
      exists m. repeat split.
      * right. destruct Hin as [->|Hin]; [now left | now right].
      * eapply Qle_trans; eassumption.
      * intros q [Hq|Hq]; [injection Hq as <-; exact Hb | auto].
Qed.

(** X9.  [school_enrol_max_min]: a slice without cells raises the
    [ValueError] of a zero-size reduction; a slice with a NaN cell gives
    (NaN, NaN); a slice of numbers gives two of its cells, the first at
    least and the second at most every cell. *)
Theorem school_enrol_max_min_outcomes (school_data : list (list cell)) :
  (concat school_data = [] ->
   school_enrol_max_min school_data = Raise (ValueError Zero_size_reduction))
  /\
  (In NaN (concat school_data) ->
   school_enrol_max_min school_data = Ok (NaN, NaN))
  /\
  (concat school_data <> [] -> Forall finite (concat school_data) ->
   exists hi lo,
     school_enrol_max_min school_data = Ok (Fin hi, Fin lo)
     /\ In (Fin hi) (concat school_data)
     /\ In (Fin lo) (concat school_data)
     /\ forall q, In (Fin q) (concat school_data) -> (lo <= q <= hi)%Q).
Proof.
  unfold school_enrol_max_min, bind, np_max, np_min.
  split; [intros ->; reflexivity|]. split.
  - destruct (concat school_data) as [|x l]; [intros []|].
    intros [->|H].
    + now rewrite fold_fmax_NaN, fold_fmin_NaN.
    + now rewrite fold_fmax_In_NaN, fold_fmin_In_NaN.
  - destruct (concat school_data) as [|x l]; [congruence|].
    intros _ H. inversion H as [|? ? [a ->] Hl]; subst.
    destruct (fold_fmax_finite l a Hl) as (hi & -> & Ihi & Ahi & Hhi).
    destruct (fold_fmin_finite l a Hl) as (lo & -> & Ilo & Alo & Hlo).
    exists hi, lo. split; [reflexivity|].
    split; [destruct Ihi as [->|I]; [now left | now right]|].
    split; [destruct Ilo as [->|I]; [now left | now right]|].
    intros q [Hq|Hq]; [injection Hq as <-; split; assumption|].
    split; auto.
Qed.

Lemma school_enrol_max_min_outcomes_witness :
  school_enrol_max_min [] = Raise (ValueError Zero_size_reduction)
  /\ school_enrol_max_min nan_slice = Ok (NaN, NaN)
  /\ exists hi lo,
       school_enrol_max_min sample_slice = Ok (Fin hi, Fin lo)
       /\ In (Fin hi) (concat sample_slice)
       /\ In (Fin lo) (concat sample_slice)
       /\ forall q, In (Fin q) (concat sample_slice) -> (lo <= q <= hi)%Q.
Proof.
  split; [|split].
  - destruct (school_enrol_max_min_outcomes []) as [H _]. now apply H.
  - destruct (school_enrol_max_min_outcomes nan_slice) as (_ & H & _).
    apply H. now left.
  - destruct (school_enrol_max_min_outcomes sample_slice) as (_ & _ & H).
    apply H; [discriminate|].
    apply Forall_forall. intros x Hx.
    assert (A : forallb (fun x => negb (is_nan x)) (concat sample_slice) = true)
      by reflexivity.
    rewrite forallb_forall in A. specialize (A x Hx).
    destruct x as [|q]; [discriminate | now exists q].
Defined.

(* ------------------------------------------------------------------ *)
(** ** Median over 500 *)

Lemma filter_map_fixed {A} (p : A -> bool) (f : A -> A) l :
  (forall x, p x = true -> f x = x) ->
  (forall x, p x = false -> p (f x) = false) ->
  filter p (map f l) = filter p l.
Proof.
  intros H1 H0. induction l as [|x l IH]; cbn [map filter]; [reflexivity|].
  destruct (p x) eqn:E.
  - rewrite (H1 x E), E. now f_equal.
  - now rewrite (H0 x E).
Qed.

(** X10.  Only the cells above 500 matter to [median_over_500]: changing
    the other cells (missing ones included) into anything that is not above
    500 leaves the result as it is. *)
Theorem median_over_500_other_cells (f : cell -> cell)
  (school_data : list (list cell)) :
  (forall x, fgt x (of_Z 500) = true -> f x = x) ->
  (forall x, fgt x (of_Z 500) = false -> fgt (f x) (of_Z 500) = false) ->
  median_over_500 (map (map f) school_data) = median_over_500 school_data.
Proof.
  intros H1 H0. unfold median_over_500, over_500.
  rewrite <- concat_map. now rewrite filter_map_fixed.
Qed.

Lemma median_over_500_other_cells_witness :
  median_over_500
    (map (map (fun x => if is_nan x then of_Z 0 else x)) nan_slice)
  = median_over_500 nan_slice.
Proof.
  apply median_over_500_other_cells.
  - intros [|q] H; [discriminate | reflexivity].
  - intros [|q] H; [reflexivity | exact H].
Defined.

(* ------------------------------------------------------------------ *)
(** ** The whole tensor *)

Lemma firstn_plus {A} n m (l : list A) :
  firstn (n + m) l = firstn n l ++ firstn m (skipn n l).
Proof.
  revert l. induction n as [|n IH]; intros l; [reflexivity|].
  destruct l as [|x l]; cbn [Nat.add firstn skipn app].
  - now rewrite firstn_nil.
  - now rewrite IH.
Qed.

Lemma concat_chunks {A} n k : forall (l : list A),
  concat (chunks n k l) = firstn (n * k) l.
Proof.
  induction n as [|n IH]; intros l; cbn [chunks concat Nat.mul];
    [reflexivity|].
  now rewrite IH, firstn_plus.
Qed.

Lemma concat_concat {A} (ll : list (list (list A))) :
  concat (concat ll) = concat (map (@concat A) ll).
Proof.
  induction ll as [|x ll IH]; cbn [concat map]; [reflexivity|].
  now rewrite concat_app, IH.
Qed.

Lemma chunks_short {A} n k : forall (l : list A),
  Forall (fun c => length c <= k)%nat (chunks n k l).
Proof.
  induction n as [|n IH]; intros l; cbn [chunks]; constructor; [|apply IH].
  rewrite length_firstn. lia.
Qed.

(** Flattening the reshaped tensor gives the input back. *)
Lemma flatten_reshaped (a : list cell) :
  length a = 600%nat ->
  concat (concat (map (chunks 20 3) (chunks 10 60 a))) = a.
Proof.
  intros L. rewrite concat_concat, map_map.
  rewrite (map_ext_in _ (fun c => c)).
  - rewrite map_id, concat_chunks. apply firstn_all2. lia.
  - intros c Hc. rewrite concat_chunks. apply firstn_all2.
    pose proof (chunks_short 10 60 a) as F. rewrite Forall_forall in F.
    specialize (F c Hc). lia.
Qed.

Lemma flatten_year (a : list cell) y :
  (y < 10)%nat ->
  concat (nth y (map (chunks 20 3) (chunks 10 60 a)) [])
  = firstn 60 (skipn (y * 60) a).
Proof.
  intros Hy.
  rewrite (nth_indep _ [] (chunks 20 3 []))
    by (rewrite length_map, chunks_length; exact Hy).
  rewrite map_nth, nth_chunks by exact Hy.
  rewrite concat_chunks, firstn_firstn. reflexivity.
Qed.

Lemma fmax_nan_choice a x : fmax_nan a x = a \/ fmax_nan a x = x.
Proof.
  destruct a as [|p], x as [|q]; cbn [fmax_nan]; auto.
  destruct (Qle_bool p q); auto.
Qed.

Lemma fmin_nan_choice a x : fmin_nan a x = a \/ fmin_nan a x = x.
Proof.
  destruct a as [|p], x as [|q]; cbn [fmin_nan]; auto.
  destruct (Qle_bool p q); auto.
Qed.

Lemma fmax_nan_ge a x q :
  a = Fin q \/ x = Fin q -> exists m, fmax_nan a x = Fin m /\ (q <= m)%Q.
Proof.
  destruct a as [|p], x as [|r]; cbn [fmax_nan];
    intros [H|H]; try discriminate; injection H as ->;
    try (eexists; split; [reflexivity | apply Qle_refl]);
    destruct (Qle_bool _ _) eqn:E; eexists; split;
      try reflexivity; try apply Qle_refl;
      try (now apply Qle_bool_iff); now apply Qle_bool_false.
Qed.

Lemma fmin_nan_le a x q :
  a = Fin q \/ x = Fin q -> exists m, fmin_nan a x = Fin m /\ (m <= q)%Q.
Proof.
  destruct a as [|p], x as [|r]; cbn [fmin_nan];
    intros [H|H]; try discriminate; injection H as ->;
    try (eexists; split; [reflexivity | apply Qle_refl]);
    destruct (Qle_bool _ _) eqn:E; eexists; split;
      try reflexivity; try apply Qle_refl;
      try (now apply Qle_bool_iff); now apply Qle_bool_false.
Qed.

(** The nan-aware maximum loop ends at one of the cells it saw, a number at
    least every number among them. *)
Lemma fold_fmax_nan_spec l : forall a,
  In (fold_left fmax_nan l a) (a :: l)
  /\ forall q, In (Fin q) (a :: l) ->
       exists m, fold_left fmax_nan l a = Fin m /\ (q <= m)%Q.
Proof.
  induction l as [|x l IH]; intros a; cbn [fold_left].
  - split; [now left|]. intros q [->|[]]. exists q. split;
      [reflexivity | apply Qle_refl].
  - destruct (IH (fmax_nan a x)) as [I B]. split.
    + destruct I as [I|I]; [|right; now right].
      rewrite <- I. destruct (fmax_nan_choice a x) as [->| ->];
        [now left | right; now left].
    + intros q [Hq|[Hq|Hq]].
      * destruct (fmax_nan_ge a x q (or_introl Hq)) as [m' [E Hm']].
        destruct (B m') as [m [-> Hm]]; [left; exact E|].
        exists m. split; [reflexivity | eapply Qle_trans; eassumption].
      * destruct (fmax_nan_ge a x q (or_intror Hq)) as [m' [E Hm']].
        destruct (B m') as [m [-> Hm]]; [left; exact E|].
        exists m. split; [reflexivity | eapply Qle_trans; eassumption].
      * apply B. now right.
Qed.

Lemma fold_fmin_nan_spec l : forall a,
  In (fold_left fmin_nan l a) (a :: l)
  /\ forall q, In (Fin q) (a :: l) ->
       exists m, fold_left fmin_nan l a = Fin m /\ (m <= q)%Q.
Proof.
  induction l as [|x l IH]; intros a; cbn [fold_left].
  - split; [now left|]. intros q [->|[]]. exists q. split;
      [reflexivity | apply Qle_refl].
  - destruct (IH (fmin_nan a x)) as [I B]. split.
    + destruct I as [I|I]; [|right; now right].
      rewrite <- I. destruct (fmin_nan_choice a x) as [->| ->];
        [now left | right; now left].
    + intros q [Hq|[Hq|Hq]].
      * destruct (fmin_nan_le a x q (or_introl Hq)) as [m' [E Hm']].
        destruct (B m') as [m [-> Hm]]; [left; exact E|].
        exists m. split; [reflexivity | eapply Qle_trans; eassumption].
      * destruct (fmin_nan_le a x q (or_intror Hq)) as [m' [E Hm']].
        destruct (B m') as [m [-> Hm]]; [left; exact E|].
        exists m. split; [reflexivity | eapply Qle_trans; eassumption].
      * apply B. now right.
Qed.

(** X11.  [general_stats] on a constructed object never raises.  The two
    means are the nan-aware means of the first and of the last sixty input
    values; the graduating total is a number; the highest and the lowest
    enrollment are input cells, and whenever the input holds a number they
    are numbers that bound every number of the input. *)
Theorem general_stats_outcomes rows school_df self :
  init rows school_df = Ok self ->
  exists g,
    general_stats self = Ok g
    /\ mean_2013 g = np_nanmean (firstn 60 (concat rows))
    /\ mean_2022 g = np_nanmean (skipn 540 (concat rows))
    /\ finite (total_grad_2022 g)
    /\ In (max_enrol_grade g) (concat rows)
    /\ In (min_enrol_grade g) (concat rows)
    /\ forall q, In (Fin q) (concat rows) ->
         exists hi lo, max_enrol_grade g = Fin hi
                       /\ min_enrol_grade g = Fin lo
                       /\ (lo <= q <= hi)%Q.
Proof.
  intros H. apply init_data in H. destruct H as [L D].
  unfold general_stats, bind. rewrite D.
  rewrite flatten_reshaped by exact L.
  rewrite !flatten_year by lia.
  destruct (concat rows) as [|x l] eqn:E; [discriminate|].
  cbn [np_nanmax np_nanmin].
  eexists. split; [reflexivity|]. cbn [mean_2013 mean_2022 total_grad_2022
    max_enrol_grade min_enrol_grade].
  destruct (fold_fmax_nan_spec l x) as [Imax Bmax].
  destruct (fold_fmin_nan_spec l x) as [Imin Bmin].
  split; [reflexivity|]. split.
  { f_equal. change (9 * 60)%nat with 540%nat. apply firstn_all2.
    rewrite length_skipn, L. lia. }
  split; [apply np_nansum_finite|].
  split; [exact Imax|]. split; [exact Imin|].
  intros q Hq. destruct (Bmax q Hq) as [hi [-> Hhi]].
  destruct (Bmin q Hq) as [lo [-> Hlo]]. exists hi, lo. auto.
Qed.

Lemma general_stats_outcomes_witness :
  exists g,
    general_stats nan_obj = Ok g
    /\ mean_2013 g = np_nanmean (firstn 60 (concat nan_rows))
    /\ mean_2022 g = np_nanmean (skipn 540 (concat nan_rows))
    /\ finite (total_grad_2022 g)
    /\ In (max_enrol_grade g) (concat nan_rows)
    /\ In (min_enrol_grade g) (concat nan_rows)
    /\ forall q, In (Fin q) (concat nan_rows) ->
         exists hi lo, max_enrol_grade g = Fin hi
                       /\ min_enrol_grade g = Fin lo
                       /\ (lo <= q <= hi)%Q.
Proof.
  apply (general_stats_outcomes nan_rows sample_table).
  vm_compute. reflexivity.
Defined.

(* ------------------------------------------------------------------ *)
(** ** The interactive loop *)


Lemma init_shape rows school_df self :
  init rows school_df = Ok self ->
  data_shape_dim self = ((10, 20, 3), 3)%nat.
Proof.
  intros H. apply init_inv in H. destruct H as [[a [_ H]] _].
  unfold data_shape_dim. now rewrite (reshape_shape a).
Qed.

Lemma try_block_q rows school_df self rest :
  init rows school_df = Ok self ->
  try_block rows school_df ("q" :: rest) = (banner, Broke).
Proof.
  intros H. unfold try_block. now rewrite H, (init_shape _ _ _ H).
Qed.

Lemma try_block_eof rows school_df self :
  init rows school_df = Ok self ->
  try_block rows school_df [] = (banner, Eof).
Proof.
  intros H. unfold try_block. now rewrite H, (init_shape _ _ _ H).
Qed.

Lemma try_block_input rows school_df self s rest :
  init rows school_df = Ok self -> s <> "q" ->
  try_block rows school_df (s :: rest)
  = (banner ++ fst (else_branch self s),
     match snd (else_branch self s) with
     | Ok _ => Continued rest
     | Raise e => Raised e rest
     end).
Proof.
  intros H Hs. unfold try_block. rewrite H, (init_shape _ _ _ H).
  apply String.eqb_neq in Hs. rewrite Hs.
  destruct (else_branch self s) as [out [u|e]]; reflexivity.
Qed.

Lemma snd_io_bind {A B} (m : io A) (k : A -> io B) :
  snd (io_bind m k)
  = match snd m with Ok a => snd (k a) | Raise e => Raise e end.
Proof.
  destruct m as [out [a|e]]; cbn [io_bind snd]; [|reflexivity].
  now destruct (k a).
Qed.

Lemma list_index_bound (l : list Z) c i :
  list_index c l = Some i -> (i < length l)%nat.
Proof.
  intros H. apply list_index_Some in H. apply nth_error_Some. congruence.
Qed.

(** With at most twenty names, nothing in the [else] branch raises an
    exception that the handler lets through. *)
Lemma else_branch_caught rows school_df self s :
  init rows school_df = Ok self ->
  (length (Dict.keys (school_names_ids self)) <= 20)%nat ->
  escapes (snd (else_branch self s)) = false.
Proof.
  intros H Hlen. unfold else_branch, input_handler_for_part2_io,
    input_handler_for_part3_io, general_stats_io, print_school_stats_io.
  rewrite !snd_io_bind. cbn [io_print io_lift snd].
  destruct (look_up_school self s) as [[n c]|e] eqn:El.
  2:{ unfold look_up_school in El.
      destruct (Dict.get String.eqb s (school_names_ids self));
        [discriminate|].
      destruct (py_int s) as [z|]; [|now injection El as <-].
      destruct (Dict.get Z.eqb z (school_ids_names self));
        [discriminate | now injection El as <-]. }
  rewrite !snd_io_bind. cbn [io_print io_lift snd fst].
  unfold get_school_data, bind, position_of_code.
  destruct (list_index c (Dict.values (school_names_ids self))) as [i|] eqn:Ei;
    [|reflexivity].
  apply list_index_bound in Ei.
  assert (Hi : (i < 20)%nat).
  { unfold Dict.values, Dict.keys in *. rewrite length_map in *. lia. }
  destruct (school_slice_ok _ _ _ i H Hi) as [-> _].
  rewrite !snd_io_bind. cbn [io_print io_lift snd].
  unfold school_enrol_max_min, bind, np_max, np_min.
  destruct (concat _) as [|x l]; [reflexivity|].
  rewrite ?snd_io_bind. cbn [io_print io_lift snd median_over_500].
  rewrite ?snd_io_bind. cbn [io_print io_lift snd].
  unfold general_stats, bind, np_nanmax, np_nanmin.
  destruct (concat (concat (data self))); reflexivity.
Qed.

(** X12.  When the data cannot be reshaped, [main] never prompts and never
    stops: every pass prints the title and the [ValueError], and starts
    again. *)
Theorem main_loops_on_bad_data rows school_df :
  is_ok (init rows school_df) = false ->
  exists c,
    init rows school_df = Raise (ValueError c)
    /\ forall fuel inputs,
         main fuel rows school_df inputs
         = (concat (repeat [P_title; P_exception (ValueError c)] fuel),
            Out_of_fuel).
Proof.
  intros H. pose proof (init_raises_ValueError _ _ H) as V.
  destruct (init rows school_df) as [self|[c|c]] eqn:E; try discriminate.
  exists c. split; [reflexivity|].
  induction fuel as [|fuel IH]; intros inputs; [reflexivity|].
  cbn [main]. unfold try_block. rewrite E, IH. reflexivity.
Qed.

Lemma main_loops_on_bad_data_witness :
  exists c,
    init [] sample_table = Raise (ValueError c)
    /\ forall fuel inputs,
         main fuel [] sample_table inputs
         = (concat (repeat [P_title; P_exception (ValueError c)] fuel),
            Out_of_fuel).
Proof. apply main_loops_on_bad_data. reflexivity. Defined.

(** X13.  A string that [look_up_school] rejects costs one pass: the
    heading and the exception are printed, and [main] goes on with the rest
    of the input. *)
Theorem main_recovers_from_lookup rows school_df self s e fuel rest :
  init rows school_df = Ok self ->
  s <> "q" ->
  look_up_school self s = Raise e ->
  main (S fuel) rows school_df (s :: rest)
  = (banner ++ [P_requested; P_exception e]
       ++ fst (main fuel rows school_df rest),
     snd (main fuel rows school_df rest)).
Proof.
  intros H Hs Hl. cbn [main].
  rewrite (try_block_input _ _ _ _ _ H Hs).
  assert (E : else_branch self s = ([P_requested], Raise e)).
  { unfold else_branch, input_handler_for_part2_io. rewrite Hl. reflexivity. }
  rewrite E. cbn [fst snd].
  assert (V : exists c, e = ValueError c).
  { unfold look_up_school in Hl.
    destruct (Dict.get String.eqb s (school_names_ids self));
      [discriminate|].
    destruct (py_int s) as [z|]; [|injection Hl as <-; eauto].
    destruct (Dict.get Z.eqb z (school_ids_names self));
      [discriminate | injection Hl as <-; eauto]. }
  destruct V as [c ->].
  destruct (main fuel rows school_df rest) as [out o]. cbn [fst snd].
  now rewrite <- app_assoc.
Qed.

Lemma main_recovers_from_lookup_witness :
  main 2 zero_rows sample_table ["beta high"; "q"]
  = (banner ++ [P_requested;
                P_exception (ValueError (Invalid_literal "beta high"))]
       ++ fst (main 1 zero_rows sample_table ["q"]),
     snd (main 1 zero_rows sample_table ["q"])).
Proof.
  apply (main_recovers_from_lookup zero_rows sample_table sample_obj).
  - exact init_sample.
  - discriminate.
  - reflexivity.
Defined.

(** X14.  A school at position 20 or beyond stops the program: its name
    line is printed, then the [IndexError] of the slice escapes the
    handler and the rest of the input is never read. *)
Theorem main_stops_on_IndexError rows school_df self s n c i fuel rest :
  init rows school_df = Ok self ->
  s <> "q" ->
  look_up_school self s = Ok (n, c) ->
  position_of_code self c = Ok i ->
  (20 <= i)%nat ->
  main (S fuel) rows school_df (s :: rest)
  = (banner ++ [P_requested; P_school n c],
     Uncaught (IndexError (Out_of_bounds i))).
Proof.
  intros H Hs Hl Hp Hi. cbn [main].
  rewrite (try_block_input _ _ _ _ _ H Hs).
  assert (E : else_branch self s
              = ([P_requested; P_school n c],
                 Raise (IndexError (Out_of_bounds i)))).
  { unfold else_branch, input_handler_for_part2_io. rewrite Hl.
    cbn [io_lift io_print io_bind fst snd app].
    unfold get_school_data, bind, school_slice. rewrite Hp.
    destruct (school_axis _ _ _ H) as [_ ->].
    apply Nat.ltb_ge in Hi. rewrite Hi. reflexivity. }
  rewrite E. reflexivity.
Qed.

Lemma main_stops_on_IndexError_witness :
  main 3 zero_rows table_21 ["S20"; "S1"; "q"]
  = (banner ++ [P_requested; P_school "S20" 120],
     Uncaught (IndexError (Out_of_bounds 20))).
Proof.
  apply (main_stops_on_IndexError zero_rows table_21 (zero_data table_21)).
  - apply init_zero_rows.
  - discriminate.
  - reflexivity.
  - reflexivity.
  - lia.
Defined.

Lemma main_skips pre : forall rows school_df self fuel rest,
  init rows school_df = Ok self ->
  (length (Dict.keys (school_names_ids self)) <= 20)%nat ->
  ~ In "q" pre ->
  snd (main (length pre + fuel) rows school_df (pre ++ rest))
  = snd (main fuel rows school_df rest).
Proof.
  induction pre as [|s pre IH]; intros rows school_df self fuel rest H Hlen Hq;
    [reflexivity|].
  cbn [length Nat.add app main].
  assert (Hs : s <> "q") by (intros ->; apply Hq; now left).
  rewrite (try_block_input _ _ _ _ _ H Hs).
  pose proof (else_branch_caught _ _ _ s H Hlen) as C.
  specialize (IH rows school_df self fuel rest H Hlen
                 (fun I => Hq (or_intror I))).
  destruct (snd (else_branch self s)) as [u|[c|c]]; try discriminate.
  - destruct (main (length pre + fuel) rows school_df (pre ++ rest)).
    exact IH.
  - destruct (main (length pre + fuel) rows school_df (pre ++ rest)).
    exact IH.
Qed.

(** X15.  With data that reshapes and at most twenty different names,
    nothing the user types makes [main] crash: it quits at the first [q]
    (which is never looked up, even when a school is named "q"), having
    taken one pass per line, and stops with [EOFError] only when the input
    ends without a [q]. *)
Theorem main_ends_at_q rows school_df self pre :
  init rows school_df = Ok self ->
  (length (Dict.keys (school_names_ids self)) <= 20)%nat ->
  ~ In "q" pre ->
  (forall post,
     snd (main (S (length pre)) rows school_df (pre ++ "q" :: post)) = Quit)
  /\ snd (main (S (length pre)) rows school_df pre) = Uncaught_EOFError
  /\ forall post fuel,
       main (S fuel) rows school_df ("q" :: post) = (banner, Quit).
Proof.
  intros H Hlen Hq. split; [|split].
  - intros post. replace (S (length pre)) with (length pre + 1)%nat by lia.
    rewrite (main_skips pre _ _ self) by assumption.
    cbn [main]. now rewrite (try_block_q _ _ _ _ H).
  - replace (S (length pre)) with (length pre + 1)%nat by lia.
    rewrite <- (app_nil_r pre) at 2.
    rewrite (main_skips pre _ _ self) by assumption.
    cbn [main]. now rewrite (try_block_eof _ _ _ H).
  - intros post fuel. cbn [main]. now rewrite (try_block_q _ _ _ _ H).
Qed.

Lemma main_ends_at_q_witness :
  snd (main 3 zero_rows sample_table ["Beta High"; "303"; "q"; "101"]) = Quit
  /\ snd (main 3 zero_rows sample_table ["Beta High"; "303"])
     = Uncaught_EOFError.
Proof.
  destruct (main_ends_at_q zero_rows sample_table sample_obj
              ["Beta High"; "303"] init_sample) as (H1 & H2 & _).
  - cbn. lia.
  - intros [E|[E|[]]]; discriminate.
  - split; [exact (H1 ["101"]) | exact H2].
Defined.

(* ------------------------------------------------------------------ *)
(** ** Grade means *)




(* ------------------------------------------------------------------ *)
(** ** Codes typed with blanks *)



Lemma is_space_not_digit c : is_space c = true -> digit_value c = None.
Proof.
  destruct c as [b0 b1 b2 b3 b4 b5 b6 b7].
  destruct b0, b1, b2, b3, b4, b5, b6, b7;
    first [ discriminate | intros _; reflexivity ].
Qed.



Lemma digit_not_space c d : digit_value c = Some d -> is_space c = false.
Proof.
  intros H. destruct (is_space c) eqn:E; [|reflexivity].
  rewrite (is_space_not_digit c E) in H. discriminate.
Qed.




(* ------------------------------------------------------------------ *)
(** ** A full report *)

Lemma slice_shape rows school_df self c sd :
  init rows school_df = Ok self ->
  get_school_data self c = Ok sd ->
  length sd = 10%nat /\ Forall (fun year => length year = 3%nat) sd.
Proof.
  intros H Hg. unfold get_school_data, bind in Hg.
  destruct (position_of_code self c) as [i|e]; [|discriminate].
  destruct (school_axis _ _ _ H) as [L10 L20].
  unfold school_slice in Hg. rewrite L20 in Hg.
  destruct (i <? 20)%nat eqn:Hi; [|discriminate]. apply Nat.ltb_lt in Hi.
  apply (f_equal (fun r => match r with Ok x => x | Raise _ => sd end)) in Hg.
  cbv beta iota in Hg. subst sd. split; [now rewrite length_map|].
  apply Forall_forall. intros year Hy.
  destruct (In_nth _ _ [] Hy) as [y [Hlt <-]].
  rewrite length_map, L10 in Hlt.
  rewrite (school_slice_year rows school_df) by assumption.
  apply init_data in H. destruct H as [L _].
  rewrite !length_firstn, !length_skipn, length_firstn, length_skipn, L.
  lia.
Qed.

Lemma general_stats_ok rows school_df self :
  init rows school_df = Ok self -> exists g, general_stats self = Ok g.
Proof.
  intros H. apply init_data in H. destruct H as [L D].
  unfold general_stats, bind. rewrite D, flatten_reshaped by exact L.
  destruct (concat rows) as [|x l]; [discriminate|].
  cbn [np_nanmax np_nanmin]. eauto.
Qed.

(** X18.  A resolved school with a slice gets the whole report in one
    pass: heading, name line, grade means, highest and lowest, the ten
    yearly totals paired with 2013 to 2022, ten-year total, mean total,
    median, then the general statistics; nothing raises on the way and
    [main] goes on with the rest of the input. *)
Theorem main_prints_full_report rows school_df self s n c sd fuel rest :
  init rows school_df = Ok self ->
  s <> "q" ->
  look_up_school self s = Ok (n, c) ->
  get_school_data self c = Ok sd ->
  exists mm g,
    school_enrol_max_min sd = Ok mm
    /\ general_stats self = Ok g
    /\ main (S fuel) rows school_df (s :: rest)
       = (banner
            ++ [P_requested; P_school n c;
                P_grade_means (school_enrol_grade_means sd);
                P_highest_lowest mm]
            ++ map (fun y => P_year_total (2013 + Z.of_nat y)
                               (np_sum (nth y sd [])))
                   (seq 0 10)
            ++ [P_ten_year_total (school_tot_ten_year sd);
                P_mean_total (mean_tot_enrol sd);
                P_median_over_500 (np_median (over_500 sd));
                P_general;
                P_mean_2013 (mean_2013 g); P_mean_2022 (mean_2022 g);
                P_total_grad_2022 (total_grad_2022 g);
                P_highest (max_enrol_grade g); P_lowest (min_enrol_grade g)]
            ++ fst (main fuel rows school_df rest),
          snd (main fuel rows school_df rest)).
Proof.
  intros H Hs Hl Hg.
  destruct (slice_shape _ _ _ _ _ H Hg) as [L10 L3].
  destruct (general_stats_ok _ _ _ H) as [g G].
  assert (M : exists mm, school_enrol_max_min sd = Ok mm).
  { unfold school_enrol_max_min, bind, np_max, np_min.
    destruct sd as [|y0 sd']; [discriminate|].
    inversion L3 as [|? ? Hy0 _]; subst.
    destruct y0 as [|x y0]; [discriminate|]. cbn [concat app]. eauto. }
  destruct M as [mm M]. exists mm, g. split; [exact M|]. split; [exact G|].
  assert (T : map (fun yt => P_year_total (fst yt) (snd yt))
                (combine years (school_enrol_tot_per_year sd))
              = map (fun y => P_year_total (2013 + Z.of_nat y)
                                (np_sum (nth y sd [])))
                    (seq 0 10)).
  { unfold school_enrol_tot_per_year.
    do 11 (destruct sd as [|? sd]; try discriminate). reflexivity. }
  cbn [main]. rewrite (try_block_input _ _ _ _ _ H Hs).
  assert (E : else_branch self s
              = ([P_requested; P_school n c;
                  P_grade_means (school_enrol_grade_means sd);
                  P_highest_lowest mm]
                   ++ map (fun y => P_year_total (2013 + Z.of_nat y)
                                      (np_sum (nth y sd [])))
                          (seq 0 10)
                   ++ [P_ten_year_total (school_tot_ten_year sd);
                       P_mean_total (mean_tot_enrol sd);
                       P_median_over_500 (np_median (over_500 sd));
                       P_general;
                       P_mean_2013 (mean_2013 g); P_mean_2022 (mean_2022 g);
                       P_total_grad_2022 (total_grad_2022 g);
                       P_highest (max_enrol_grade g);
                       P_lowest (min_enrol_grade g)],
                 Ok tt)).
  { unfold else_branch, input_handler_for_part2_io,
      input_handler_for_part3_io, general_stats_io, print_school_stats_io.
    rewrite Hl. cbn [io_lift io_print io_bind fst snd].
    rewrite Hg. cbn [io_bind]. rewrite M. cbn [io_bind].
    rewrite T. unfold median_over_500. cbn [io_bind].
    rewrite G. cbn [io_bind app].
    rewrite <- !app_assoc. reflexivity. }
  rewrite E. cbn [fst snd].
  destruct (main fuel rows school_df rest) as [out o]. cbn [fst snd].
  rewrite <- !app_assoc. reflexivity.
Qed.

Lemma main_prints_full_report_witness :
  exists mm g,
    school_enrol_max_min zero_slice = Ok mm
    /\ general_stats sample_obj = Ok g
    /\ main 2 zero_rows sample_table ["202"; "q"]
       = (banner
            ++ [P_requested; P_school "Beta High" 202;
                P_grade_means (school_enrol_grade_means zero_slice);
                P_highest_lowest mm]
            ++ map (fun y => P_year_total (2013 + Z.of_nat y)
                               (np_sum (nth y zero_slice [])))
                   (seq 0 10)
            ++ [P_ten_year_total (school_tot_ten_year zero_slice);
                P_mean_total (mean_tot_enrol zero_slice);
                P_median_over_500 (np_median (over_500 zero_slice));
                P_general;
                P_mean_2013 (mean_2013 g); P_mean_2022 (mean_2022 g);
                P_total_grad_2022 (total_grad_2022 g);
                P_highest (max_enrol_grade g); P_lowest (min_enrol_grade g)]
            ++ fst (main 1 zero_rows sample_table ["q"]),
          snd (main 1 zero_rows sample_table ["q"])).
Proof.
  apply (main_prints_full_report zero_rows sample_table sample_obj).
  - exact init_sample.
  - discriminate.
  - reflexivity.
  - reflexivity.
Defined.
